(** * The GOAT (LibraryThing) scraper of a11yhood-backend

    A shallow embedding of [src/scrapers/goat.py]: the work-id extractor, the
    XML normaliser, the product builder and the bulk [scrape] loop, followed
    by the properties the specification states about them.

    Conventions of the embedding.
    - A Python [str] is a [string]; its characters are read as code points
      below 256, on which [str.isspace], [str.lower] and the regular
      expression class [\d] are the ones written out below.
    - A Python value that flows through the scraper's dicts is a [Val]:
      [None], a [str], or a list of [str].  A dict is a [gmap string Val].
    - Code that can raise returns a [Result]; code that talks to the outside
      (clock, HTTP client, row store) is a state transformer over an abstract
      [World], so that every behaviour of those collaborators is covered by
      quantifying over the world and its transition functions.  Exceptions
      are instances of Python's [Exception]; [print] is a no-op. *)

From Stdlib Require Import ZArith String Ascii List Lia.
From stdpp Require Import base option gmap strings list pretty.

Local Open Scope string_scope.
Local Open Scope list_scope.
Local Open Scope stdpp_scope.

(** ** Python values *)

Inductive Val :=
| VNone
| VStr (s : string)
| VList (l : list string).

#[global] Instance Val_eq_dec : EqDecision Val.
Proof. solve_decision. Defined.

(** Truth value of a Python object: [None], [''] and [[]] are falsy. *)
Definition truthy (v : Val) : bool :=
  match v with
  | VNone => false
  | VStr s => negb (String.eqb s "")
  | VList l => negb (bool_decide (l = []))
  end.

(** [a or b] *)
Definition py_or (a b : Val) : Val := if truthy a then a else b.

(** A dict is falsy exactly when it is empty. *)
Definition truthy_dict (d : gmap string Val) : bool := negb (bool_decide (d = ∅)).

(** [d.get(k, dflt)] and [d.get(k)] *)
Definition dict_get (d : gmap string Val) (k : string) (dflt : Val) : Val :=
  default dflt (d !! k).

(** ** Exceptions and results *)

Inductive ExcClass :=
| HTTPStatusError
| TimeoutException
| ParseError
| KeyError
| TypeError
| OtherException.

Record Exception := mkException { exc_class : ExcClass; exc_str : string }.

Inductive Result (A : Type) :=
| Ok (a : A)
| Raise (e : Exception).
Arguments Ok {A} a.
Arguments Raise {A} e.

(** ** Strings *)

Definition nl : string := String "010"%char EmptyString.

Definition code (c : ascii) : N := N_of_ascii c.

(** [str.isspace] on one character. *)
Definition is_space (c : ascii) : bool :=
  let n := code c in
  ((9 <=? n) && (n <=? 13) || (28 <=? n) && (n <=? 32)
   || (n =? 133) || (n =? 160))%N.

(** The class [\d]. *)
Definition is_digit (c : ascii) : bool :=
  let n := code c in ((48 <=? n) && (n <=? 57))%N.

Fixpoint lstrip (s : string) : string :=
  match s with
  | EmptyString => EmptyString
  | String c r => if is_space c then lstrip r else s
  end.

Fixpoint rstrip (s : string) : string :=
  match s with
  | EmptyString => EmptyString
  | String c r =>
      let r' := rstrip r in
      if is_space c && String.eqb r' "" then EmptyString else String c r'
  end.

(** [s.strip()] *)
Definition strip (s : string) : string := rstrip (lstrip s).

Definition lower_char (c : ascii) : ascii :=
  let n := code c in
  if ((65 <=? n) && (n <=? 90)
      || (192 <=? n) && (n <=? 222) && negb (n =? 215))%N
  then ascii_of_N (n + 32) else c.

(** [s.lower()] *)
Fixpoint lower (s : string) : string :=
  match s with
  | EmptyString => EmptyString
  | String c r => String (lower_char c) (lower r)
  end.

(** [s.startswith(p)] *)
Definition startswith (s p : string) : bool := String.prefix p s.

(** [p in s] *)
Fixpoint contains (s p : string) : bool :=
  String.prefix p s ||
  match s with
  | EmptyString => false
  | String _ r => contains r p
  end.

Fixpoint drop_chars (n : nat) (s : string) : string :=
  match n, s with
  | O, _ => s
  | S n', String _ r => drop_chars n' r
  | S _, EmptyString => EmptyString
  end.

(** The longest prefix of digits: what the greedy group [(\d+)] captures. *)
Fixpoint span_digits (s : string) : string :=
  match s with
  | EmptyString => EmptyString
  | String c r => if is_digit c then String c (span_digits r) else EmptyString
  end.

(** [re.match(r'/work/(\d+)', s)]: the pattern anchored at the start of [s];
    the result is group 1. *)
Definition match_work (s : string) : option string :=
  if String.prefix "/work/" s then
    let ds := span_digits (drop_chars 6 s) in
    if String.eqb ds "" then None else Some ds
  else None.

(** [re.search(r'/work/(\d+)', s)]: the leftmost position where the
    pattern matches; the result is group 1. *)
Fixpoint search_work (s : string) : option string :=
  match match_work s with
  | Some ds => Some ds
  | None =>
      match s with
      | EmptyString => None
      | String _ r => search_work r
      end
  end.

(** Characters of a string as one-character strings (iterating a [str]). *)
Definition chars (s : string) : list string :=
  map (fun c => String c EmptyString) (list_ascii_of_string s).

(** ** XML elements ([xml.etree.ElementTree.Element]) *)

#[local] Unset Elimination Schemes.
Inductive Element :=
| Elem (tag : string) (text : option string) (children : list Element).
#[local] Set Elimination Schemes.

Definition tag (e : Element) : string := let 'Elem t _ _ := e in t.
Definition text (e : Element) : option string := let 'Elem _ t _ := e in t.
Definition children (e : Element) : list Element := let 'Elem _ _ c := e in c.

(** [e.findall(path)] for a plain tag name: the direct children with that
    tag, in document order. *)
Definition findall (e : Element) (path : string) : list Element :=
  filter (fun c => tag c = path) (children e).

(** [e.find(path)]: the first such child. *)
Definition find (e : Element) (path : string) : option Element :=
  head (findall e path).

(** [e.findtext(path, dflt)]: the text of the first such child, [''] when it
    has no text, [dflt] when there is no such child. *)
Definition findtext (e : Element) (path dflt : string) : string :=
  match find e path with
  | Some c => default "" (text c)
  | None => dflt
  end.

(** ** Library functions the scraper calls *)

Class PyLib := {
  (** [ET.fromstring]: [None] stands for [ET.ParseError]. *)
  fromstring : string -> option Element;
  (** [str(l)] of a list of strings. *)
  str_list : list string -> string;
  (** [datetime.isoformat] of a UTC instant given in microseconds. *)
  isoformat : Z -> string;
}.

(** ** State and exceptions *)

Definition M (S A : Type) : Type := S -> Result A * S.

#[global] Instance M_ret {S} : MRet (M S) := fun A a s => (Ok a, s).

#[global] Instance M_bind {S} : MBind (M S) := fun A B f m s =>
  match m s with
  | (Ok a, s') => f a s'
  | (Raise e, s') => (Raise e, s')
  end.

Definition raise {S A} (e : Exception) : M S A := fun s => (Raise e, s).

(** [try: body  except Exception as e: handler e] *)
Definition try_except {S A} (body : M S A) (handler : Exception -> M S A) : M S A :=
  fun s =>
    match body s with
    | (Ok a, s') => (Ok a, s')
    | (Raise e, s') => handler e s'
    end.

(** A pure computation that may raise. *)
Definition of_result {S A} (r : Result A) : M S A := fun s => (r, s).

(** Run a computation on the second component of the state. *)
Definition on_world {R W A} (m : M W A) : M (R * W) A :=
  fun '(r, w) => let '(a, w') := m w in (a, (r, w')).

(** Change the first component of the state. *)
Definition update {R W} (f : R -> R) : M (R * W) unit :=
  fun '(r, w) => (Ok tt, (f r, w)).

Definition get_results {R W} : M (R * W) R :=
  fun '(r, w) => (Ok r, (r, w)).

(** ** The collaborators of the scraper *)

Record Response := mkResponse { status_code : Z; response_text : string }.

(** What [GOATScraper] inherits from [BaseScraper] and holds as clients.
    [base_scraper.py] is not part of the sources at hand; its helpers are
    taken as parameters, each free to return or to raise. *)
Class BaseScraper (World : Type) := {
  (** [datetime.now(UTC)], in microseconds. *)
  datetime_now : World -> Z * World;
  (** [self._throttle_request()] *)
  _throttle_request : M World unit;
  (** [self.client.get(url, params=params, timeout=30.0, follow_redirects=True)] *)
  client_get : string -> list (string * Val) -> M World Response;
  (** [self.supabase.table('scraper_search_terms').select('search_term')
      .eq('platform', 'goat').execute().data] *)
  select_search_terms : M World (list (gmap string Val));
  (** [self._product_exists(url)] *)
  _product_exists : Val -> M World (option (gmap string Val));
  (** [super()._create_product(raw_data)] *)
  super_create_product : gmap string Val -> M World bool;
  (** [super()._update_product(product_id, raw_data)] *)
  super_update_product : Val -> gmap string Val -> M World bool;
}.

(** ** The scrape run report *)

Record Results := mkResults {
  source : string;
  products_found : nat;
  products_added : nat;
  products_updated : nat;
  duration_seconds : Z;
  status : string;
  message : option string;
  error_message : option string;
}.

Definition set_status (v : string) (r : Results) : Results :=
  mkResults (source r) (products_found r) (products_added r) (products_updated r)
            (duration_seconds r) v (message r) (error_message r).

Definition set_message (v : string) (r : Results) : Results :=
  mkResults (source r) (products_found r) (products_added r) (products_updated r)
            (duration_seconds r) (status r) (Some v) (error_message r).

Definition set_duration_seconds (v : Z) (r : Results) : Results :=
  mkResults (source r) (products_found r) (products_added r) (products_updated r)
            v (status r) (message r) (error_message r).

Definition incr_products_found (r : Results) : Results :=
  mkResults (source r) (S (products_found r)) (products_added r) (products_updated r)
            (duration_seconds r) (status r) (message r) (error_message r).

Definition incr_products_added (r : Results) : Results :=
  mkResults (source r) (products_found r) (S (products_added r)) (products_updated r)
            (duration_seconds r) (status r) (message r) (error_message r).

Definition incr_products_updated (r : Results) : Results :=
  mkResults (source r) (products_found r) (products_added r) (S (products_updated r))
            (duration_seconds r) (status r) (message r) (error_message r).

(** ** [class GOATScraper(BaseScraper)] *)

Section GOATScraper.
Context `{PyLib} {World : Type} `{BaseScraper World}.

(** [self.api_key] *)
Variable api_key : Val.

(** [datetime.now(UTC)] *)
Definition utcnow : M World Z :=
  fun w => let '(now, w') := datetime_now w in (Ok now, w').

Definition API_BASE_URL : string := "https://www.librarything.com/services/rest/1.1".

Definition get_source_name : string := "goat".

Definition supports_url (url : string) : bool :=
  contains (lower url) "librarything.com".

Definition _extract_work_id (url : string) : option string := search_work url.

(** [str(v)], as an f-string renders [{v}]. *)
Definition format_val (v : Val) : string :=
  match v with
  | VNone => "None"
  | VStr s => s
  | VList l => str_list l
  end.

(** [v += t] for a string [t]: concatenation on a [str], extension by the
    characters of [t] on a list, [TypeError] on [None]. *)
Definition iadd_str (v : Val) (t : string) : Result Val :=
  match v with
  | VStr s => Ok (VStr (s +:+ t))
  | VList l => Ok (VList (l ++ chars t))
  | VNone => Raise (mkException TypeError "unsupported operand type(s) for +=")
  end.

(** The loop over [work.findall('description')]: the first element whose
    text is non-blank gives the description. *)
Fixpoint first_description (descriptions : list Element) : Val :=
  match descriptions with
  | [] => VNone
  | desc_elem :: rest =>
      match text desc_elem with
      | Some desc_text =>
          if negb (String.eqb desc_text "") && negb (String.eqb (strip desc_text) "")
          then VStr (strip desc_text)
          else first_description rest
      | None => first_description rest
      end
  end.

(** The loop over [work.findall('cover')]: the first cover with an id. *)
Fixpoint first_cover (covers : list Element) : Val :=
  match covers with
  | [] => VNone
  | cover_elem :: rest =>
      let cover_id := strip (findtext cover_elem "id" "") in
      if negb (String.eqb cover_id "")
      then VStr ("https://covers.librarything.com/pics/" +:+ cover_id +:+ "l")
      else first_cover rest
  end.

(** The loop over [popular_tags.findall('tag')]: the non-empty tag names. *)
Fixpoint tag_names (tag_elems : list Element) : list string :=
  match tag_elems with
  | [] => []
  | tag_elem :: rest =>
      let tag_name := strip (findtext tag_elem "name" "") in
      if negb (String.eqb tag_name "") then tag_name :: tag_names rest
      else tag_names rest
  end.

Definition _parse_xml_response (xml_text work_id : string) : option (gmap string Val) :=
  match fromstring xml_text with
  | None => None
  | Some root =>
      match find root "error" with
      | Some error => None
      | None =>
          match find root "work" with
          | None => None
          | Some work =>
              let title := strip (findtext work "title" "") in
              if String.eqb title "" then None
              else
                let author :=
                  match find work "author" with
                  | Some author_elem =>
                      py_or (VStr (strip (findtext author_elem "name" "")))
                            (VStr (strip (findtext author_elem "authorname" "")))
                  | None => VNone
                  end in
                let description := first_description (findall work "description") in
                let image_url := first_cover (findall work "cover") in
                let tags :=
                  match find work "populartags" with
                  | Some popular_tags => tag_names (findall popular_tags "tag")
                  | None => []
                  end in
                let language := strip (findtext work "language" "") in
                let publication_year := strip (findtext work "publicationyear" "") in
                Some (<["work_id" := VStr work_id]>
                     (<["title" := VStr title]>
                     (<["author" := author]>
                     (<["description" := description]>
                     (<["image_url" := image_url]>
                     (<["tags" := VList tags]>
                     (<["language" := VStr language]>
                     (<["publication_year" := VStr publication_year]>
                     (<["url" := VStr ("https://www.librarything.com/work/" +:+ work_id)]>
                      ∅)))))))))
          end
      end
  end.

Definition _fetch_work_details (work_id : string) : M World (option (gmap string Val)) :=
  try_except
    (if negb (truthy api_key) then mret None
     else
       let url := API_BASE_URL +:+ "/" in
       let params := [("method", VStr "librarything.ck.getwork");
                      ("id", VStr work_id);
                      ("apikey", api_key)] in
       _ ← _throttle_request;
       r ← try_except (response ← client_get url params; mret (Some response))
             (fun e =>
                match exc_class e with
                | HTTPStatusError => mret None
                | TimeoutException => mret None
                | _ => raise e
                end);
       match r with
       | None => mret None
       | Some response =>
           if negb (status_code response =? 200)%Z then mret None
           else mret (_parse_xml_response (response_text response) work_id)
       end)
    (fun e => mret None).

Definition _create_product_dict (work_data : gmap string Val) (source_url : Val)
  : M World (gmap string Val) :=
  let title := dict_get work_data "title" (VStr "Untitled") in
  let author := dict_get work_data "author" VNone in
  let description := dict_get work_data "description" VNone in
  let description :=
    if truthy author && truthy description
    then VStr ("By " +:+ format_val author +:+ nl +:+ nl +:+ format_val description)
    else if truthy author then VStr ("By " +:+ format_val author)
    else description in
  description ←
    (if truthy (dict_get work_data "publication_year" VNone) then
       match work_data !! "publication_year" with
       | None => raise (mkException KeyError "'publication_year'")
       | Some publication_year =>
           if truthy description
           then of_result (iadd_str description
                  (nl +:+ nl +:+ "Published: " +:+ format_val publication_year))
           else mret (VStr ("Published: " +:+ format_val publication_year))
       end
     else mret description : M World Val);
  description ←
    (if truthy (dict_get work_data "language" VNone) then
       match work_data !! "language" with
       | None => raise (mkException KeyError "'language'")
       | Some lang =>
           if truthy description
           then of_result (iadd_str description (nl +:+ "Language: " +:+ format_val lang))
           else mret (VStr ("Language: " +:+ format_val lang))
       end
     else mret description : M World Val);
  let source_last_updated :=
    if truthy (dict_get work_data "last_updated" VNone)
    then dict_get work_data "last_updated" VNone
    else VNone in
  now ← utcnow;
  mret (<["name" := title]>
       (<["description" := description]>
       (<["source" := VStr "GOAT"]>
       (<["url" := py_or source_url (dict_get work_data "url" VNone)]>
       (<["image" := dict_get work_data "image_url" VNone]>
       (<["type" := VStr "Book"]>
       (<["external_id" := dict_get work_data "work_id" VNone]>
       (<["tags" := dict_get work_data "tags" (VList [])]>
       (<["scraped_at" := VStr (isoformat now)]>
       (<["source_last_updated" := source_last_updated]>
        (∅ : gmap string Val))))))))))).

Definition _create_product (raw_data : gmap string Val) : M World bool :=
  super_create_product raw_data.

Definition _update_product (product_id : Val) (raw_data : gmap string Val) : M World bool :=
  super_update_product product_id raw_data.

Definition scrape_url (url : string) : M World (option (gmap string Val)) :=
  try_except
    (match _extract_work_id url with
     | None => mret None
     | Some work_id =>
         if String.eqb work_id "" then mret None
         else
           work_data ← _fetch_work_details work_id;
           match work_data with
           | None => mret None
           | Some work_data =>
               if negb (truthy_dict work_data) then mret None
               else
                 product ← _create_product_dict work_data (VStr url);
                 mret (Some product)
           end
     end)
    (fun e => mret None).

(** [isinstance(target, str) and target.startswith('http')] *)
Definition is_http_str (target : Val) : bool :=
  match target with
  | VStr s => startswith s "http"
  | _ => false
  end.

(** The work id and the source URL of a target: a URL gives both, any
    other target is taken as a work id. *)
Definition resolve_target (target : Val) : option string * Val :=
  if is_http_str target
  then (_extract_work_id (format_val target), target)
  else (match target with
        | VNone => None
        | _ => Some (strip (format_val target))
        end, VNone).

(** The body of the [try] inside the target loop of [scrape]. *)
Definition scrape_target_try (target : Val) : M (Results * World) unit :=
  let '(work_id, source_url) := resolve_target target in
  match work_id with
  | None => mret tt
  | Some work_id =>
      if String.eqb work_id "" then mret tt
      else
        work_data ← on_world (_fetch_work_details work_id);
        match work_data with
        | None => mret tt
        | Some work_data =>
            if negb (truthy_dict work_data) then mret tt
            else
              product_payload ← on_world (_create_product_dict work_data source_url);
              let product_url :=
                py_or (dict_get product_payload "url" VNone)
                      (VStr ("https://www.librarything.com/work/" +:+ work_id)) in
              existing ← on_world (_product_exists product_url);
              _ ← match existing with
                  | Some existing =>
                      if truthy_dict existing then
                        match existing !! "id" with
                        | None => raise (mkException KeyError "'id'")
                        | Some product_id =>
                            success ← on_world (_update_product product_id product_payload);
                            if success : bool then update incr_products_updated
                            else mret tt
                        end
                      else
                        success ← on_world (_create_product product_payload);
                        if success : bool then update incr_products_added
                        else mret tt
                  | None =>
                      success ← on_world (_create_product product_payload);
                      if success : bool then update incr_products_added
                      else mret tt
                  end;
              update incr_products_found
        end
  end.

(** One iteration of the loop: the [try] with its [except Exception]
    handler, which logs and continues. *)
Definition scrape_target (target : Val) : M (Results * World) unit :=
  try_except (scrape_target_try target) (fun e => mret tt).

(** [for i, target in enumerate(targets)], entered at index [i]. *)
Fixpoint scrape_targets (test_mode : bool) (test_limit : Z) (i : nat)
    (targets : list Val) : M (Results * World) unit :=
  match targets with
  | [] => mret tt
  | target :: rest =>
      if test_mode && (test_limit <=? Z.of_nat i)%Z then mret tt
      else
        _ ← scrape_target target;
        scrape_targets test_mode test_limit (S i) rest
  end.

(** Lines 245-254: explicit [urls] take precedence over the search terms
    stored for platform [goat]. *)
Definition load_targets (urls : option (list Val)) : M World (list Val) :=
  match urls with
  | Some (u :: us) => mret (u :: us)
  | _ =>
      try_except
        (data ← select_search_terms;
         mret (map (fun item => dict_get item "search_term" VNone)
                   (List.filter (fun item => truthy (dict_get item "search_term" VNone))
                                data)))
        (fun e => mret [])
  end.

Definition no_api_key_message : string :=
  "LibraryThing API key not configured. Cannot scrape without API key. Configure in oauth_configs table with platform=goat".

Definition no_targets_message : string :=
  "No GOAT targets configured. Provide LibraryThing URLs or work IDs via urls argument or scraper_search_terms (platform=goat).".

Definition no_works_message : string :=
  "No works could be fetched. LibraryThing API is likely blocked by CloudFlare. Use scrape_url() for individual books instead.".

(** The body of the outer [try] of [scrape]; the report is the mutable
    [results] dict, held in the first component of the state. *)
Definition scrape_try (start_time : Z) (test_mode : bool) (test_limit : Z)
    (urls : option (list Val)) : M (Results * World) unit :=
  if negb (truthy api_key) then
    _ ← update (set_status "warning");
    update (set_message no_api_key_message)
  else
    targets ← on_world (load_targets urls);
    if bool_decide (targets = []) then
      _ ← update (set_status "warning");
      _ ← update (set_message no_targets_message);
      now ← on_world utcnow;
      update (set_duration_seconds (now - start_time))
    else
      _ ← scrape_targets test_mode test_limit 0 targets;
      now ← on_world utcnow;
      _ ← update (set_duration_seconds (now - start_time));
      results ← get_results;
      if (products_found results =? 0)%nat then
        _ ← update (set_status "warning");
        update (set_message no_works_message)
      else
        update (set_message ("Scraped " +:+ pretty (products_found results)
                             +:+ " works (API may have limited access)")).

(** The outer [except Exception as e] of [scrape]. *)
Definition scrape_except (start_time : Z) (e : Exception) : M World Results :=
  now ← utcnow;
  mret (mkResults "GOAT" 0 0 0 (now - start_time) "error" None
          (Some ("Scraper error: " +:+ exc_str e
                 +:+ ". Note: LibraryThing API may be blocked by CloudFlare."))).

Definition initial_results : Results :=
  mkResults "GOAT" 0 0 0 0 "success" None None.

Definition scrape (test_mode : bool) (test_limit : Z) (urls : option (list Val))
  : M World Results :=
  start_time ← utcnow;
  ((fun w =>
      match scrape_try start_time test_mode test_limit urls (initial_results, w) with
      | (Ok _, (results, w')) => (Ok results, w')
      | (Raise e, (_, w')) => scrape_except start_time e w'
      end) : M World Results).
End GOATScraper.

(** ** What the specification says about work-id extraction *)

Definition all_digits (s : string) : bool :=
  forallb is_digit (list_ascii_of_string s).

Definition starts_with_digit (s : string) : bool :=
  match s with
  | EmptyString => false
  | String c _ => is_digit c
  end.

(** [url] contains a segment [/work/<digits>] that starts after [pre]; [ds]
    is the whole run of digits and [rest] what follows it. *)
Definition work_segment (url pre ds rest : string) : Prop :=
  url = pre +:+ "/work/" +:+ ds +:+ rest
  ∧ ds ≠ "" ∧ all_digits ds = true ∧ starts_with_digit rest = false.

(** ** What the specification says about a payload with a titled work *)

(** The payload contains a [work] element with a non-empty title: read on
    the element the parser looks at, the first [work] child of the root and
    its first [title] child. *)
Definition has_titled_work (root : Element) : Prop :=
  ∃ work title_elem t,
    find root "work" = Some work ∧ find work "title" = Some title_elem
    ∧ text title_elem = Some t ∧ t ≠ "".

(** The same with the two conditions the parser adds: no [error] child at the
    root, and a title that is non-empty once stripped. *)
Definition has_usable_work (root : Element) : Prop :=
  find root "error" = None
  ∧ ∃ work, find root "work" = Some work ∧ strip (findtext work "title" "") ≠ "".

(** A field of a record is non-null when the key is there and is not [None]. *)
Definition non_null (d : gmap string Val) (k : string) : Prop :=
  ∃ v, d !! k = Some v ∧ v ≠ VNone.

(** ** Sample payloads and a scripted world, used in examples *)

Definition garden_xml : string :=
  "<response><work><id>35356138</id><title>The Curious Garden</title><author><name>Peter Brown</name></author></work></response>".

Definition garden_tree : Element :=
  Elem "response" None
    [Elem "work" None
       [Elem "id" (Some "35356138") [];
        Elem "title" (Some "The Curious Garden") [];
        Elem "author" None [Elem "name" (Some "Peter Brown") []]]].

Definition error_xml : string :=
  "<response><error><message>Work not found</message></error></response>".

Definition error_tree : Element :=
  Elem "response" None
    [Elem "error" None [Elem "message" (Some "Work not found") []]].

Definition bare_error_xml : string :=
  "<error><message>Work not found</message></error>".

Definition bare_error_tree : Element :=
  Elem "error" None [Elem "message" (Some "Work not found") []].

Definition blank_title_xml : string :=
  "<response><work><title> </title></work></response>".

Definition blank_title_tree : Element :=
  Elem "response" None [Elem "work" None [Elem "title" (Some " ") []]].

Definition untitled_xml : string :=
  "<response><work><id>7</id></work></response>".

Definition untitled_tree : Element :=
  Elem "response" None [Elem "work" None [Elem "id" (Some "7") []]].

(** A stand-in for the library: the XML parser on the sample payloads (any
    other text is malformed), a simple list rendering and a numeric
    timestamp rendering. *)
Definition sample_pylib : PyLib := {|
  fromstring s :=
    if String.eqb s garden_xml then Some garden_tree
    else if String.eqb s error_xml then Some error_tree
    else if String.eqb s bare_error_xml then Some bare_error_tree
    else if String.eqb s blank_title_xml then Some blank_title_tree
    else if String.eqb s untitled_xml then Some untitled_tree
    else None;
  str_list l := "[" +:+ String.concat ", " l +:+ "]";
  isoformat t := pretty t;
|}.

(** A scripted world: the state counts the clock reads; every collaborator
    answers as the script says, whatever it is asked. *)
Record Script := mkScript {
  sc_throttle : Result unit;
  sc_response : string -> Result Response;
  sc_terms : Result (list (gmap string Val));
  sc_existing : Val -> Result (option (gmap string Val));
  sc_create : Result bool;
  sc_update : Result bool;
}.

(** The work id asked for in the request parameters. *)
Definition requested_id (params : list (string * Val)) : string :=
  match params with
  | _ :: (_, VStr work_id) :: _ => work_id
  | _ => ""
  end.

Definition scripted (sc : Script) : BaseScraper nat := {|
  datetime_now n := (Z.of_nat n, S n);
  _throttle_request := of_result (sc_throttle sc);
  client_get url params := of_result (sc_response sc (requested_id params));
  select_search_terms := of_result (sc_terms sc);
  _product_exists url := of_result (sc_existing sc url);
  super_create_product raw_data := of_result (sc_create sc);
  super_update_product product_id raw_data := of_result (sc_update sc);
|}.

(** Upstream serves the garden payload for work 35356138, the error payload
    for work 1, a 403 for anything else. *)
Definition sample_upstream (work_id : string) : Result Response :=
  if String.eqb work_id "35356138" then Ok (mkResponse 200 garden_xml)
  else if String.eqb work_id "1" then Ok (mkResponse 200 error_xml)
  else Ok (mkResponse 403 "blocked").

Definition boom : Exception := mkException OtherException "connection reset".

(** A healthy store that knows no product yet. *)
Definition healthy : Script :=
  mkScript (Ok tt) sample_upstream (Ok []) (fun _ => Ok None) (Ok true) (Ok true).

(** A store whose existence lookup raises. *)
Definition lookup_raises : Script :=
  mkScript (Ok tt) sample_upstream (Ok []) (fun _ => Raise boom) (Ok true) (Ok true).

(** A store whose existence lookup raises for the work URL of work 35356138
    and finds nothing for any other URL. *)
Definition lookup_raises_once : Script :=
  mkScript (Ok tt) sample_upstream (Ok [])
    (fun url =>
       if bool_decide (url = VStr "https://www.librarything.com/work/35356138")
       then Raise boom else Ok None)
    (Ok true) (Ok true).

(** A store that refuses every insert. *)
Definition insert_fails : Script :=
  mkScript (Ok tt) sample_upstream (Ok []) (fun _ => Ok None) (Ok false) (Ok true).

(** A store that holds every product and refuses every update. *)
Definition update_fails : Script :=
  mkScript (Ok tt) sample_upstream (Ok [])
    (fun url => Ok (Some (<["id" := VStr "p1"]> (<["url" := url]> ∅))))
    (Ok true) (Ok false).

(** ** A row store *)

Record Store := mkStore {
  products : gmap string (gmap string Val);
  clock : Z;
}.

(** The rows of the products table whose [url] is the one given, with their
    [id] column. *)
Definition rows_with_url (ps : gmap string (gmap string Val)) (url : Val)
  : list (string * gmap string Val) :=
  filter (fun kr => kr.2 !! "url" = Some url) (map_to_list ps).

Definition set_products (ps : gmap string (gmap string Val)) (w : Store) : Store :=
  mkStore ps (clock w).

(** Modelled from the spec: [BaseScraper._product_exists], [_create_product]
    and [_update_product], whose file [base_scraper.py] is missing.  Section
    4.1: given a canonical url, query the row store for an existing product
    with that url; if found, issue an update with the newly normalised
    fields, which never nulls out a field absent from the new record; if
    absent, issue an insert; both paths return a boolean success flag.  The
    table is keyed by [id]; upstream answers each request the same way every
    time, and the stored search terms do not change. *)
Definition store_scraper (upstream : string -> list (string * Val) -> Result Response)
    (terms : list (gmap string Val)) : BaseScraper Store := {|
  datetime_now w := (clock w, mkStore (products w) (clock w + 1));
  _throttle_request := mret tt;
  client_get url params := of_result (upstream url params);
  select_search_terms := mret terms;
  _product_exists url := fun w =>
    (Ok ((fun kr => <["id" := VStr kr.1]> kr.2) <$> head (rows_with_url (products w) url)), w);
  super_create_product raw_data := fun w =>
    (Ok true, set_products (<[fresh (dom (products w)) := raw_data]> (products w)) w);
  super_update_product product_id raw_data := fun w =>
    (Ok true,
     match product_id with
     | VStr k => set_products (alter (fun row => raw_data ∪ row) k (products w)) w
     | _ => w
     end);
|}.

(** ** Invariants of the run report *)

(** [r'] differs from [r] by counters that did not decrease; the status and
    the messages are those of [r]. *)
Definition counts_only (r r' : Results) : Prop :=
  source r' = source r ∧ status r' = status r ∧ message r' = message r
  ∧ error_message r' = error_message r
  ∧ duration_seconds r' = duration_seconds r
  ∧ (products_found r ≤ products_found r')%nat
  ∧ (products_added r ≤ products_added r')%nat
  ∧ (products_updated r ≤ products_updated r')%nat.

(** Whatever its outcome, [m] changes the report only as [P] allows. *)
Definition preserves {W A} (P : Results -> Results -> Prop) (m : M (Results * W) A) : Prop :=
  ∀ r w res r' w', m (r, w) = (res, (r', w')) → P r r'.

(** ** Two runs against the same upstream *)

Section Upstream.
Context `{PyLib}.
Variable upstream : string -> list (string * Val) -> Result Response.
Variable api_key : Val.

(** What fetching [work_id] gives when upstream answers by [upstream]. *)
Definition upstream_fetch (work_id : string) : option (gmap string Val) :=
  if negb (truthy api_key) then None
  else
    match upstream (API_BASE_URL +:+ "/")
            [("method", VStr "librarything.ck.getwork"); ("id", VStr work_id);
             ("apikey", api_key)] with
    | Ok response =>
        if negb (status_code response =? 200)%Z then None
        else _parse_xml_response (response_text response) work_id
    | Raise _ => None
    end.

(** The canonical url of a target that is fetched successfully; [None] for
    a target that is skipped. *)
Definition target_url (target : Val) : option Val :=
  match resolve_target target with
  | (Some work_id, source_url) =>
      if String.eqb work_id "" then None
      else
        match upstream_fetch work_id with
        | Some work_data =>
            if truthy_dict work_data
            then Some (py_or (py_or source_url (dict_get work_data "url" VNone))
                             (VStr ("https://www.librarything.com/work/" +:+ work_id)))
            else None
        | None => None
        end
  | (None, _) => None
  end.

(** The number of targets fetched successfully. *)
Definition fetched_count (targets : list Val) : nat :=
  length (filter (fun target => is_Some (target_url target)) targets).
End Upstream.

(** The targets the loop attempts. *)
Definition attempted (test_mode : bool) (test_limit : Z) (targets : list Val) : list Val :=
  if test_mode then take (Z.to_nat test_limit) targets else targets.

(** The targets a run resolves from its [urls] argument and the stored
    search terms. *)
Definition resolved_targets (urls : option (list Val)) (terms : list (gmap string Val))
  : list Val :=
  match urls with
  | Some (u :: us) => u :: us
  | _ => map (fun item => dict_get item "search_term" VNone)
             (List.filter (fun item => truthy (dict_get item "search_term" VNone)) terms)
  end.

(** The products table holds a row with this [url]. *)
Definition known (ps : gmap string (gmap string Val)) (url : Val) : Prop :=
  ∃ k row, ps !! k = Some row ∧ row !! "url" = Some url.

(** ** Vocabulary for the further properties *)

(** [s] begins, or ends, with a whitespace character. *)
Definition starts_with_space (s : string) : bool :=
  match s with
  | EmptyString => false
  | String c _ => is_space c
  end.

Fixpoint ends_with_space (s : string) : bool :=
  match s with
  | EmptyString => false
  | String c EmptyString => is_space c
  | String _ r => ends_with_space r
  end.

(** A string as [str.strip] leaves it: no whitespace at either end. *)
Definition stripped (s : string) : Prop :=
  starts_with_space s = false ∧ ends_with_space s = false.

(** The keys of the dict [_parse_xml_response] returns. *)
Definition work_data_keys : gset string :=
  {[ "work_id"; "title"; "author"; "description"; "image_url"; "tags";
     "language"; "publication_year"; "url" ]}.

(** The keys of the dict [_create_product_dict] returns. *)
Definition product_keys : gset string :=
  {[ "name"; "description"; "source"; "url"; "image"; "type"; "external_id";
     "tags"; "scraped_at"; "source_last_updated" ]}.

(** A world whose throttle raises. *)
Definition throttle_raises : Script :=
  mkScript (Raise boom) sample_upstream (Ok []) (fun _ => Ok None) (Ok true) (Ok true).

(** A world whose HTTP client raises on every request. *)
Definition client_raises : Script :=
  mkScript (Ok tt) (fun _ => Raise boom) (Ok []) (fun _ => Ok None) (Ok true) (Ok true).

(** The work data expected from the garden payload. *)
Definition garden_work_data : gmap string Val :=
  <["work_id" := VStr "35356138"]>
  (<["title" := VStr "The Curious Garden"]>
  (<["author" := VStr "Peter Brown"]>
  (<["description" := VNone]>
  (<["image_url" := VNone]>
  (<["tags" := VList []]>
  (<["language" := VStr ""]>
  (<["publication_year" := VStr ""]>
  (<["url" := VStr "https://www.librarything.com/work/35356138"]> ∅)))))))).

(** ** The service that runs the adapter *)

(** [try: body  finally: finalizer]: the finalizer always runs; what it
    raises replaces the outcome of the body. *)
Definition try_finally {S A} (body : M S A) (finalizer : M S unit) : M S A :=
  fun s =>
    let '(res, s') := body s in
    match finalizer s' with
    | (Ok _, s'') => (res, s'')
    | (Raise e, s'') => (Raise e, s'')
    end.

Section ScraperService.
Context `{PyLib} {World : Type} `{BaseScraper World}.

(** [scraper.close()] *)
Variable close : M World unit.

(** [ScraperService.scrape_goat]; the constructor of [GOATScraper] keeps
    [access_token] as [self.api_key], and no [urls] are passed on. *)
Definition scrape_goat (access_token : Val) (test_mode : bool) (test_limit : Z)
  : M World Results :=
  try_finally (scrape access_token test_mode test_limit None) close.
End ScraperService.

(** A store with four stored search terms: a work id, an empty term, a row
    without the column and a URL. *)
Definition with_terms : Script :=
  mkScript (Ok tt) sample_upstream
    (Ok [ <["search_term" := VStr "35356138"]> ∅;
          <["search_term" := VStr ""]> ∅;
          ∅;
          <["search_term" := VStr "https://www.librarything.com/work/1"]> ∅ ])
    (fun _ => Ok None) (Ok true) (Ok true).

(** ** The outer handler of [scrape] *)

Section OuterHandler.
Context {World : Type} `{BaseScraper World}.

(** The frame of [scrape] around the body of its outer [try]: the clock
    is read, the report starts as [initial_results], the body runs on it,
    and [except Exception as e] answers what the body raises with the
    error report.  [scrape] is this frame around [scrape_try]. *)
Definition scrape_around (body : Z -> M (Results * World) unit) : M World Results :=
  start_time ← utcnow;
  ((fun w =>
      match body start_time (initial_results, w) with
      | (Ok _, (results, w')) => (Ok results, w')
      | (Raise e, (_, w')) => scrape_except start_time e w'
      end) : M World Results).
End OuterHandler.

(** A body of the outer [try] that runs the loop on the garden work and
    then fails. *)
Definition loop_then_boom : Z -> M (Results * nat) unit :=
  fun _ =>
    _ ← @scrape_targets sample_pylib nat (scripted healthy) (VStr "k") false 5 0
          [VStr "35356138"];
    raise boom.

(** * Properties *)

(** ** Work-id extraction *)

Lemma append_cons (c : ascii) (a b : string) :
  String c a +:+ b = String c (a +:+ b).
Proof. reflexivity. Qed.

Lemma append_empty (b : string) : "" +:+ b = b.
Proof. reflexivity. Qed.

Ltac simpl_append := rewrite ?append_cons, ?append_empty in *.

Lemma prefix_app (p s : string) :
  String.prefix p s = true ↔ ∃ r, s = p +:+ r.
Proof.
  revert s. induction p as [|a p IH]; intros s.
  - split; [intros _; by exists s | by destruct s].
  - destruct s as [|b s]; [split; [done | intros [r Hr]; discriminate]|].
    cbn [String.prefix String.append]. destruct (ascii_dec a b) as [->|Hne].
    + rewrite IH. split; intros [r Hr]; exists r; [by rewrite Hr | by injection Hr].
    + split; [done | intros [r Hr]; by injection Hr as Hb _].
Qed.

Lemma span_digits_split (t : string) :
  ∃ rest, t = span_digits t +:+ rest
          ∧ all_digits (span_digits t) = true ∧ starts_with_digit rest = false.
Proof.
  induction t as [|c t (rest & Ht & Hd & Hr)]; simpl.
  - by exists "".
  - destruct (is_digit c) eqn:Hc.
    + exists rest. split; [rewrite append_cons; f_equal; exact Ht|]. split; [|done].
      unfold all_digits in *. simpl. by rewrite Hc.
    + exists (String c t). simpl. by rewrite Hc.
Qed.

Lemma span_digits_unique (ds rest : string) :
  all_digits ds = true → starts_with_digit rest = false →
  span_digits (ds +:+ rest) = ds.
Proof.
  intros Hd Hr. induction ds as [|c ds IH]; simpl.
  - destruct rest as [|c r]; [done|]. simpl in *. by rewrite Hr.
  - unfold all_digits in *. simpl in Hd. apply andb_true_iff in Hd as [Hc Hd].
    rewrite Hc. by rewrite IH.
Qed.

Lemma drop_work (r : string) : drop_chars 6 ("/work/" +:+ r) = r.
Proof. reflexivity. Qed.

Lemma prefix_work (r : string) : String.prefix "/work/" ("/work/" +:+ r) = true.
Proof. apply prefix_app. by exists r. Qed.

Lemma match_work_spec (s ds : string) :
  match_work s = Some ds ↔ ∃ rest, work_segment s "" ds rest.
Proof.
  unfold match_work, work_segment. split.
  - destruct (String.prefix "/work/" s) eqn:Hp; [|done].
    apply prefix_app in Hp as [r ->]. rewrite drop_work.
    destruct (span_digits_split r) as (rest & Hr & Hd & Hn).
    destruct (String.eqb (span_digits r) "") eqn:He; [done|].
    intros [= <-]. exists rest. rewrite append_empty, <- Hr.
    repeat split; try done.
    intros Heq. rewrite Heq in He. discriminate.
  - intros (rest & -> & Hne & Hd & Hr). rewrite append_empty.
    rewrite prefix_work, drop_work, span_digits_unique by done.
    destruct (String.eqb ds "") eqn:He; [|done].
    by apply String.eqb_eq in He.
Qed.

Lemma work_segment_cons (c : ascii) (s pre ds rest : string) :
  work_segment (String c s) (String c pre) ds rest ↔ work_segment s pre ds rest.
Proof.
  unfold work_segment. rewrite append_cons.
  split; intros (Hs & ?); split; try done.
  - by injection Hs.
  - by rewrite Hs.
Qed.

Lemma work_segment_shift (c : ascii) (s pre ds rest : string) :
  match_work (String c s) = None →
  work_segment (String c s) pre ds rest →
  ∃ pre', pre = String c pre' ∧ work_segment s pre' ds rest.
Proof.
  intros Hm Hw. destruct pre as [|c' pre].
  - assert (match_work (String c s) = Some ds) as Hs
      by (apply match_work_spec; by exists rest).
    congruence.
  - assert (c' = c) as ->
      by (destruct Hw as [Hw _]; rewrite append_cons in Hw; by injection Hw).
    exists pre. split; [done|]. exact (proj1 (work_segment_cons c s pre ds rest) Hw).
Qed.

Lemma search_work_spec (url ds : string) :
  search_work url = Some ds ↔
  ∃ pre rest, work_segment url pre ds rest
    ∧ ∀ pre' ds' rest', work_segment url pre' ds' rest' →
                        (String.length pre ≤ String.length pre')%nat.
Proof.
  induction url as [|c url IH] in ds |- *.
  - simpl. split; [done|].
    intros (pre & rest & (Hu & _) & _). by destruct pre.
  - cbn [search_work]. destruct (match_work (String c url)) as [ds0|] eqn:Hm.
    + split.
      * intros [= <-]. apply match_work_spec in Hm as [rest Hw].
        exists "", rest. split; [done|]. intros; simpl; lia.
      * intros (pre & rest & Hw & Hmin).
        pose proof Hm as Hm'. apply match_work_spec in Hm' as [rest0 Hw0].
        specialize (Hmin _ _ _ Hw0). destruct pre; [|simpl in Hmin; lia].
        assert (match_work (String c url) = Some ds) as Hs
          by (apply match_work_spec; by exists rest).
        congruence.
    + rewrite IH. split.
      * intros (pre & rest & Hw & Hmin). exists (String c pre), rest. split.
        -- by apply work_segment_cons.
        -- intros pre' ds' rest' Hw'.
           destruct (work_segment_shift _ _ _ _ _ Hm Hw') as (p & -> & Hp).
           simpl. specialize (Hmin _ _ _ Hp). lia.
      * intros (pre & rest & Hw & Hmin).
        destruct (work_segment_shift _ _ _ _ _ Hm Hw) as (p & -> & Hp).
        exists p, rest. split; [done|]. intros pre' ds' rest' Hw'.
        apply (work_segment_cons c) in Hw'. specialize (Hmin _ _ _ Hw').
        simpl in Hmin. lia.
Qed.

Lemma search_work_none (url : string) :
  search_work url = None ↔ ¬ ∃ pre ds rest, work_segment url pre ds rest.
Proof.
  induction url as [|c url IH].
  - simpl. split; [|done]. intros _ (pre & ds & rest & Hu & _). by destruct pre.
  - cbn [search_work]. destruct (match_work (String c url)) as [ds0|] eqn:Hm.
    + split; [done|]. intros Hno. exfalso. apply Hno.
      apply match_work_spec in Hm as [rest Hw]. by exists "", ds0, rest.
    + rewrite IH. split; intros Hno (pre & ds & rest & Hw); apply Hno.
      * destruct (work_segment_shift _ _ _ _ _ Hm Hw) as (p & -> & Hp).
        by exists p, ds, rest.
      * exists (String c pre), ds, rest. by apply work_segment_cons.
Qed.

(** C6. [_extract_work_id] returns the work-level identifier for every URL
    shape: on a URL with a segment [/work/<digits>] it returns the digits of
    the first such segment, so the edition URL and the work URL of work
    35356138 both give [35356138]; on a URL without such a segment it
    returns [None]. *)
Theorem extract_work_id_spec :
  _extract_work_id "https://www.librarything.com/work/35356138/book/302275636"
    = Some "35356138"
  ∧ _extract_work_id "https://www.librarything.com/work/35356138" = Some "35356138"
  ∧ (∀ url ds : string,
       _extract_work_id url = Some ds ↔
       ∃ pre rest, work_segment url pre ds rest
         ∧ ∀ pre' ds' rest', work_segment url pre' ds' rest' →
                             (String.length pre ≤ String.length pre')%nat)
  ∧ (∀ url : string,
       _extract_work_id url = None ↔ ¬ ∃ pre ds rest, work_segment url pre ds rest).
Proof.
  split; [by vm_compute|]. split; [by vm_compute|].
  split; [apply search_work_spec | apply search_work_none].
Qed.

(** ** The product builder *)

Section Builder.
Context `{PyLib} {World : Type} `{BaseScraper World}.

Lemma truthy_iadd_str (d : Val) (t : string) :
  truthy d = true → ∃ d', iadd_str d t = Ok d'.
Proof. destruct d; [done | by eexists | by eexists]. Qed.

(** One "add metadata to the description" step of [_create_product_dict]
    returns. *)
Lemma describe_step (work_data : gmap string Val) (key : string)
    (e : Exception) (added fresh : Val -> string) (d : Val) (w : World) :
  ∃ d',
    (if truthy (dict_get work_data key VNone) then
       match work_data !! key with
       | None => raise e
       | Some v =>
           if truthy d then of_result (iadd_str d (added v))
           else mret (VStr (fresh v))
       end
     else mret d : M World Val) w = (Ok d', w).
Proof.
  unfold dict_get. destruct (work_data !! key) as [v|]; simpl; [|by eexists].
  destruct (truthy v); [|by eexists].
  destruct (truthy d) eqn:Hd; [|by eexists].
  destruct (truthy_iadd_str d (added v) Hd) as [d' Hd'].
  exists d'. unfold of_result. by rewrite Hd'.
Qed.

Lemma create_product_dict_ok (work_data : gmap string Val) (source_url : Val) (w : World) :
  ∃ p,
    _create_product_dict work_data source_url w = (Ok p, (datetime_now w).2)
    ∧ p !! "name" = Some (dict_get work_data "title" (VStr "Untitled"))
    ∧ p !! "source" = Some (VStr "GOAT")
    ∧ p !! "url" = Some (py_or source_url (dict_get work_data "url" VNone))
    ∧ p !! "type" = Some (VStr "Book")
    ∧ p !! "scraped_at" = Some (VStr (isoformat (datetime_now w).1)).
Proof.
  unfold _create_product_dict.
  set (d0 := if truthy (dict_get work_data "author" VNone) && _ then _ else _).
  unfold mbind at 1. unfold M_bind at 1.
  destruct (describe_step work_data "publication_year"
              (mkException KeyError "'publication_year'")
              (fun v => nl +:+ nl +:+ "Published: " +:+ format_val v)
              (fun v => "Published: " +:+ format_val v) d0 w) as [d1 Hd1].
  rewrite Hd1.
  unfold mbind at 1. unfold M_bind at 1.
  destruct (describe_step work_data "language"
              (mkException KeyError "'language'")
              (fun v => nl +:+ "Language: " +:+ format_val v)
              (fun v => "Language: " +:+ format_val v) d1 w) as [d2 Hd2].
  rewrite Hd2.
  unfold mbind, M_bind, utcnow, mret, M_ret.
  destruct (datetime_now w) as [now w']. simpl.
  eexists. split; [done|]. by simplify_map_eq.
Qed.
End Builder.

(** ** The XML normaliser *)

Section Normaliser.
Context `{PyLib} {World : Type} `{BaseScraper World}.

Lemma parse_error_element (xml_text work_id : string) (root err : Element) :
  fromstring xml_text = Some root → find root "error" = Some err →
  _parse_xml_response xml_text work_id = None.
Proof. intros Hx He. unfold _parse_xml_response. by rewrite Hx, He. Qed.

Lemma parse_no_work (xml_text work_id : string) (root : Element) :
  fromstring xml_text = Some root → find root "work" = None →
  _parse_xml_response xml_text work_id = None.
Proof.
  intros Hx Hw. unfold _parse_xml_response. rewrite Hx, Hw.
  by destruct (find root "error").
Qed.

Lemma parse_blank_title (xml_text work_id : string) (root work : Element) :
  fromstring xml_text = Some root → find root "work" = Some work →
  strip (findtext work "title" "") = "" →
  _parse_xml_response xml_text work_id = None.
Proof.
  intros Hx Hw Ht. unfold _parse_xml_response. rewrite Hx, Hw, Ht.
  by destruct (find root "error").
Qed.

Lemma parse_malformed (xml_text work_id : string) :
  fromstring xml_text = None → _parse_xml_response xml_text work_id = None.
Proof. intros Hx. unfold _parse_xml_response. by rewrite Hx. Qed.

Lemma parse_usable (xml_text work_id : string) (root : Element) :
  fromstring xml_text = Some root → has_usable_work root →
  ∃ work work_data,
    find root "work" = Some work
    ∧ _parse_xml_response xml_text work_id = Some work_data
    ∧ work_data !! "title" = Some (VStr (strip (findtext work "title" "")))
    ∧ work_data !! "work_id" = Some (VStr work_id)
    ∧ work_data !! "url"
      = Some (VStr ("https://www.librarything.com/work/" +:+ work_id)).
Proof.
  intros Hx (He & work & Hw & Ht). exists work.
  unfold _parse_xml_response. rewrite Hx, He, Hw.
  destruct (String.eqb (strip (findtext work "title" "")) "") eqn:Heq.
  { by apply String.eqb_eq in Heq. }
  eexists. split; [done|]. split; [done|]. by simplify_map_eq.
Qed.

(** What the parser returns is never the empty dict, and its [url] is the
    work URL. *)
Lemma parse_some (xml_text work_id : string) (work_data : gmap string Val) :
  _parse_xml_response xml_text work_id = Some work_data →
  truthy_dict work_data = true
  ∧ work_data !! "url"
    = Some (VStr ("https://www.librarything.com/work/" +:+ work_id)).
Proof.
  unfold _parse_xml_response. intros Hp.
  destruct (fromstring xml_text) as [root|]; [|done].
  destruct (find root "error"); [done|].
  destruct (find root "work") as [work|]; [|done].
  destruct (String.eqb _ ""); [done|].
  injection Hp as <-. split; [|by simplify_map_eq].
  unfold truthy_dict. rewrite bool_decide_eq_false_2; [done|].
  intros Hempty.
  assert ((∅ : gmap string Val) !! "work_id" = Some (VStr work_id)) as Hl
    by (rewrite <- Hempty; by simplify_map_eq).
  by rewrite lookup_empty in Hl.
Qed.

Lemma non_null_py_or_str (a : Val) (s : string) : py_or a (VStr s) ≠ VNone.
Proof. unfold py_or. destruct (truthy a) eqn:Ha; [by destruct a | done]. Qed.

(** C4, as amended. For a well-formed payload: when the root has no [error]
    child and its first [work] child has a title that is non-empty once
    stripped, the parser followed by the builder yields a record whose
    [name], [source], [url] and [type] are non-null; when the root has no
    [work] child, or the title of its first [work] child is missing, empty
    or blank, the parser returns [None]. *)
Theorem parse_then_build (xml_text work_id : string) (root : Element)
    (source_url : Val) (w : World) :
  fromstring xml_text = Some root →
  (has_usable_work root →
   ∃ work_data p w',
     _parse_xml_response xml_text work_id = Some work_data
     ∧ _create_product_dict work_data source_url w = (Ok p, w')
     ∧ non_null p "name" ∧ non_null p "source"
     ∧ non_null p "url" ∧ non_null p "type")
  ∧ (find root "work" = None → _parse_xml_response xml_text work_id = None)
  ∧ (∀ work, find root "work" = Some work →
       find work "title" = None ∨ strip (findtext work "title" "") = "" →
       _parse_xml_response xml_text work_id = None).
Proof.
  intros Hx. split; [|split].
  - intros Hu.
    destruct (parse_usable xml_text work_id root Hx Hu)
      as (work & work_data & Hw & Hp & Ht & _ & Hurl).
    destruct (create_product_dict_ok work_data source_url w)
      as (p & Hc & Hname & Hsrc & Hu' & Hty & _).
    exists work_data, p, (datetime_now w).2. split; [done|]. split; [done|].
    unfold non_null, dict_get in *. rewrite Ht in Hname. rewrite Hurl in Hu'.
    simpl in *. repeat split; eexists; (split; [eassumption|]); try done.
    apply non_null_py_or_str.
  - by apply parse_no_work.
  - intros work Hw [Hmiss|Hblank].
    + apply (parse_blank_title _ _ root work); [done..|].
      unfold findtext. by rewrite Hmiss.
    + by apply (parse_blank_title _ _ root work).
Qed.

(** C10. Whatever the work data and the source URL, the record built by
    [_create_product_dict] has [source] [GOAT], [type] [Book] and a
    non-null [scraped_at], while [get_source_name] is [goat]: the stored
    tag differs from the adapter's source name, and only in letter case. *)
Theorem product_source_tag (work_data : gmap string Val) (source_url : Val) (w : World) :
  ∃ p w',
    _create_product_dict work_data source_url w = (Ok p, w')
    ∧ p !! "source" = Some (VStr "GOAT")
    ∧ p !! "type" = Some (VStr "Book")
    ∧ non_null p "scraped_at"
    ∧ get_source_name = "goat"
    ∧ p !! "source" ≠ Some (VStr get_source_name)
    ∧ lower "GOAT" = get_source_name.
Proof.
  destruct (create_product_dict_ok work_data source_url w)
    as (p & Hc & _ & Hsrc & _ & Hty & Hat).
  exists p, (datetime_now w).2. repeat split; try done.
  - by eexists.
  - by rewrite Hsrc.
Qed.
End Normaliser.

(** C4, as first stated, fails: a well-formed payload whose work has the
    non-empty title [" "] is normalised to [None]. *)
Lemma blank_title_not_normalised :
  @fromstring sample_pylib blank_title_xml = Some blank_title_tree
  ∧ has_titled_work blank_title_tree
  ∧ @_parse_xml_response sample_pylib blank_title_xml "7" = None.
Proof.
  split; [done|]. split; [|done].
  exists (Elem "work" None [Elem "title" (Some " ") []]), (Elem "title" (Some " ") []), " ".
  by vm_compute.
Qed.

Lemma parse_then_build_witness :
  has_usable_work garden_tree
  ∧ ∃ work_data p w',
      @_parse_xml_response sample_pylib garden_xml "35356138" = Some work_data
      ∧ @_create_product_dict sample_pylib nat (scripted healthy) work_data VNone 0%nat
        = (Ok p, w')
      ∧ p !! "name" = Some (VStr "The Curious Garden")
      ∧ non_null p "url".
Proof.
  assert (has_usable_work garden_tree) as Hu.
  { split; [done|]. eexists. split; [done|]. by vm_compute. }
  split; [done|].
  destruct (@parse_then_build sample_pylib nat (scripted healthy)
              garden_xml "35356138" garden_tree VNone 0%nat eq_refl)
    as [Hok _].
  destruct (Hok Hu) as (work_data & p & w' & Hp & Hc & Hn & _ & Hurl & _).
  exists work_data, p, w'. repeat split; try done.
  vm_compute in Hp. injection Hp as <-.
  vm_compute in Hc. injection Hc as <- _. done.
Defined.

(** ** The monad *)

Ltac unfold_m :=
  unfold mbind, M_bind, mret, M_ret, on_world, update, get_results,
    of_result, raise, try_except, utcnow in *.

Lemma try_except_ok {S A} (body : M S A) (handler : Exception → M S A) (s : S) :
  (∀ e s1, ∃ a s2, handler e s1 = (Ok a, s2)) →
  ∃ a s', try_except body handler s = (Ok a, s').
Proof.
  intros Hh. unfold try_except. destruct (body s) as [[a|e] s1]; [by eexists _, _|].
  apply Hh.
Qed.

Lemma try_except_raise {S A} (body : M S A) (handler : Exception → M S A)
    (s s' : S) (e : Exception) :
  body s = (Raise e, s') → try_except body handler s = handler e s'.
Proof. intros Hb. unfold try_except. by rewrite Hb. Qed.

Lemma try_except_return {S A} (body : M S A) (handler : Exception → M S A)
    (s s' : S) (a : A) :
  body s = (Ok a, s') → try_except body handler s = (Ok a, s').
Proof. intros Hb. unfold try_except. by rewrite Hb. Qed.

#[local] Instance counts_only_refl : Reflexive counts_only.
Proof. intros r. unfold counts_only. repeat split; lia. Qed.

#[local] Instance counts_only_trans : Transitive counts_only.
Proof.
  intros a b c (?&?&?&?&?&?&?&?) (?&?&?&?&?&?&?&?).
  unfold counts_only. repeat split; try congruence; lia.
Qed.

Section Preserves.
Context {W : Type}.

Lemma preserves_ret {A} (a : A) : preserves (W:=W) counts_only (mret a).
Proof. intros r w res r' w' [= _ <- _]. reflexivity. Qed.

Lemma preserves_raise {A} (e : Exception) :
  preserves (W:=W) (A:=A) counts_only (raise e).
Proof. intros r w res r' w' [= _ <- _]. reflexivity. Qed.

Lemma preserves_on_world {A} (m : M W A) : preserves counts_only (on_world m).
Proof.
  intros r w res r' w'. unfold on_world. destruct (m w). intros [= _ <- _].
  reflexivity.
Qed.

Lemma preserves_update (f : Results → Results) :
  (∀ r, counts_only r (f r)) → preserves (W:=W) counts_only (update f).
Proof. intros Hf r w res r' w' [= _ <- _]. apply Hf. Qed.

Lemma preserves_bind {A B} (m : M (Results * W) A) (f : A → M (Results * W) B) :
  preserves counts_only m → (∀ a, preserves counts_only (f a)) →
  preserves counts_only (m ≫= f).
Proof.
  intros Hm Hf r w res r' w'. unfold mbind, M_bind.
  destruct (m (r, w)) as [[a|e] [r1 w1]] eqn:Hr.
  - intros Hfa. etrans; [by eapply Hm | by eapply Hf].
  - intros [= _ <- _]. by eapply Hm.
Qed.

Lemma preserves_try_except {A} (m : M (Results * W) A) (h : Exception → M (Results * W) A) :
  preserves counts_only m → (∀ e, preserves counts_only (h e)) →
  preserves counts_only (try_except m h).
Proof.
  intros Hm Hh r w res r' w'. unfold try_except.
  destruct (m (r, w)) as [[a|e] [r1 w1]] eqn:Hr.
  - intros [= _ <- _]. by eapply Hm.
  - intros Hhe. etrans; [by eapply Hm | by eapply Hh].
Qed.
End Preserves.

Lemma counts_only_found (r : Results) : counts_only r (incr_products_found r).
Proof. unfold counts_only. simpl. repeat split; lia. Qed.

Lemma counts_only_added (r : Results) : counts_only r (incr_products_added r).
Proof. unfold counts_only. simpl. repeat split; lia. Qed.

Lemma counts_only_updated (r : Results) : counts_only r (incr_products_updated r).
Proof. unfold counts_only. simpl. repeat split; lia. Qed.

(** ** The bulk loop *)

Section Loop.
Context `{PyLib} {World : Type} `{BaseScraper World}.
Variable api_key : Val.

Lemma fetch_work_details_ok (work_id : string) (w : World) :
  ∃ r w', _fetch_work_details api_key work_id w = (Ok r, w').
Proof. apply try_except_ok. intros e s1. by eexists _, _. Qed.

Lemma load_targets_ok (urls : option (list Val)) (w : World) :
  ∃ targets w', load_targets urls w = (Ok targets, w').
Proof.
  unfold load_targets. destruct urls as [[|u us]|]; try by eexists _, _.
  all: apply try_except_ok; intros e s1; by eexists _, _.
Qed.

Lemma scrape_target_ok (target : Val) (s : Results * World) :
  ∃ s', scrape_target api_key target s = (Ok tt, s').
Proof.
  destruct (try_except_ok (scrape_target_try api_key target)
              (fun e => mret tt) s) as ([] & s' & Hs); [|by exists s'].
  intros e s1. by eexists _, _.
Qed.

Lemma scrape_targets_ok (test_mode : bool) (test_limit : Z) (i : nat)
    (targets : list Val) (s : Results * World) :
  ∃ s', scrape_targets api_key test_mode test_limit i targets s = (Ok tt, s').
Proof.
  revert i s. induction targets as [|target rest IH]; intros i s; simpl.
  - by eexists.
  - destruct (test_mode && (test_limit <=? Z.of_nat i)%Z); [by eexists|].
    unfold mbind, M_bind. destruct (scrape_target_ok target s) as [s1 ->].
    apply IH.
Qed.

Lemma scrape_target_try_preserves (target : Val) :
  preserves counts_only (scrape_target_try api_key target).
Proof.
  unfold scrape_target_try.
  destruct (resolve_target target) as [[work_id|] source_url];
    [|apply preserves_ret].
  destruct (String.eqb work_id ""); [apply preserves_ret|].
  apply preserves_bind; [apply preserves_on_world|].
  intros [work_data|]; [|apply preserves_ret].
  destruct (negb (truthy_dict work_data)); [apply preserves_ret|].
  apply preserves_bind; [apply preserves_on_world|]. intros p.
  apply preserves_bind; [apply preserves_on_world|]. intros existing.
  apply preserves_bind;
    [|intros _; apply preserves_update, counts_only_found].
  assert (preserves counts_only
            (success ← on_world (_create_product p);
             if success : bool then update incr_products_added else mret tt))
    as Hcreate.
  { apply preserves_bind; [apply preserves_on_world|].
    intros [|]; [apply preserves_update, counts_only_added | apply preserves_ret]. }
  destruct existing as [existing|]; [|done].
  destruct (truthy_dict existing); [|done].
  destruct (existing !! "id") as [product_id|]; [|apply preserves_raise].
  apply preserves_bind; [apply preserves_on_world|].
  intros [|]; [apply preserves_update, counts_only_updated | apply preserves_ret].
Qed.

Lemma scrape_target_preserves (target : Val) :
  preserves counts_only (scrape_target api_key target).
Proof.
  apply preserves_try_except; [apply scrape_target_try_preserves|].
  intros e. apply preserves_ret.
Qed.

Lemma scrape_targets_preserves (test_mode : bool) (test_limit : Z) (i : nat)
    (targets : list Val) :
  preserves counts_only (scrape_targets api_key test_mode test_limit i targets).
Proof.
  revert i. induction targets as [|target rest IH]; intros i; simpl.
  - apply preserves_ret.
  - destruct (test_mode && (test_limit <=? Z.of_nat i)%Z); [apply preserves_ret|].
    apply preserves_bind; [apply scrape_target_preserves | intros _; apply IH].
Qed.
End Loop.

Section Run.
Context `{PyLib} {World : Type} `{BaseScraper World}.
Variable api_key : Val.

(** *** Test mode *)

Lemma scrape_targets_test_limit (test_limit : Z) (i : nat) (targets : list Val)
    (s : Results * World) :
  scrape_targets api_key true test_limit i targets s
  = scrape_targets api_key false test_limit i
      (take (Z.to_nat test_limit - i) targets) s.
Proof.
  revert i s. induction targets as [|target rest IH]; intros i s.
  - by rewrite take_nil.
  - cbn [scrape_targets]. rewrite andb_true_l.
    destruct (test_limit <=? Z.of_nat i)%Z eqn:Hi.
    + apply Z.leb_le in Hi.
      replace (Z.to_nat test_limit - i)%nat with 0%nat by lia. done.
    + apply Z.leb_gt in Hi.
      replace (Z.to_nat test_limit - i)%nat
        with (S (Z.to_nat test_limit - S i)) by lia.
      cbn [take scrape_targets andb]. unfold mbind, M_bind.
      destruct (scrape_target api_key target s) as [[[]|e] s1]; [apply IH | done].
Qed.

(** C7. In test mode with limit [N] the loop attempts at most [N] targets,
    whatever their number and their outcome: the run is the run without
    test mode on the first [N] targets, and the loop stops without touching
    anything as soon as the index of the next target has reached [N]. *)
Theorem test_mode_attempts_at_most_limit (N : nat) (targets : list Val)
    (s : Results * World) :
  scrape_targets api_key true (Z.of_nat N) 0 targets s
  = scrape_targets api_key false (Z.of_nat N) 0 (take N targets) s
  ∧ (length (take N targets) ≤ N)%nat
  ∧ ∀ (k : nat) (target : Val) (rest : list Val),
      scrape_targets api_key true (Z.of_nat N) (N + k) (target :: rest) s
      = (Ok tt, s).
Proof.
  split; [|split].
  - rewrite scrape_targets_test_limit. do 2 f_equal. lia.
  - rewrite length_take. lia.
  - intros k target rest. cbn [scrape_targets]. rewrite andb_true_l.
    rewrite (proj2 (Z.leb_le _ _)) by lia. done.
Qed.

(** *** One target *)

Lemma scrape_targets_cons (test_mode : bool) (test_limit : Z) (i : nat)
    (target : Val) (rest : list Val) (s s' : Results * World) :
  test_mode && (test_limit <=? Z.of_nat i)%Z = false →
  scrape_target api_key target s = (Ok tt, s') →
  scrape_targets api_key test_mode test_limit i (target :: rest) s
  = scrape_targets api_key test_mode test_limit (S i) rest s'.
Proof.
  intros Hgo Hs. cbn [scrape_targets]. rewrite Hgo.
  unfold mbind, M_bind. by rewrite Hs.
Qed.

(** A target whose fetch gives nothing is skipped: the report is
    untouched. *)
Lemma scrape_target_not_fetched (target : Val) (work_id : string) (source_url : Val)
    (r : Results) (w w' : World) :
  resolve_target target = (Some work_id, source_url) →
  _fetch_work_details api_key work_id w = (Ok None, w') →
  work_id ≠ "" →
  scrape_target api_key target (r, w) = (Ok tt, (r, w')).
Proof.
  intros Hres Hf Hne. unfold scrape_target, scrape_target_try. rewrite Hres.
  apply String.eqb_neq in Hne. rewrite Hne. unfold_m. by rewrite Hf.
Qed.

Lemma fetch_error_response (work_id : string) (w w1 w2 : World)
    (response : Response) (root err : Element) :
  truthy api_key = true →
  _throttle_request w = (Ok tt, w1) →
  client_get (API_BASE_URL +:+ "/")
    [("method", VStr "librarything.ck.getwork"); ("id", VStr work_id);
     ("apikey", api_key)] w1 = (Ok response, w2) →
  status_code response = 200%Z →
  fromstring (response_text response) = Some root →
  find root "error" = Some err →
  _fetch_work_details api_key work_id w = (Ok None, w2).
Proof.
  intros Hk Ht Hg Hs Hx He. unfold _fetch_work_details. rewrite Hk.
  unfold_m. simpl. rewrite Ht, Hg, Hs. simpl.
  by rewrite (parse_error_element _ _ root err).
Qed.

(** C9. An upstream response whose root has an [error] element makes
    [_parse_xml_response] return [None]; then [_fetch_work_details] returns
    [None] for that work, and the loop passes to the next target with
    [products_found], [products_added] and [products_updated] unchanged. *)
Theorem error_response_is_skipped (target : Val) (work_id : string)
    (source_url : Val) (w w1 w2 : World) (response : Response)
    (root err : Element) :
  truthy api_key = true →
  resolve_target target = (Some work_id, source_url) →
  work_id ≠ "" →
  _throttle_request w = (Ok tt, w1) →
  client_get (API_BASE_URL +:+ "/")
    [("method", VStr "librarything.ck.getwork"); ("id", VStr work_id);
     ("apikey", api_key)] w1 = (Ok response, w2) →
  status_code response = 200%Z →
  fromstring (response_text response) = Some root →
  find root "error" = Some err →
  _parse_xml_response (response_text response) work_id = None
  ∧ _fetch_work_details api_key work_id w = (Ok None, w2)
  ∧ ∀ (r : Results) (test_mode : bool) (test_limit : Z) (i : nat) (rest : list Val),
      scrape_target api_key target (r, w) = (Ok tt, (r, w2))
      ∧ (test_mode && (test_limit <=? Z.of_nat i)%Z = false →
         scrape_targets api_key test_mode test_limit i (target :: rest) (r, w)
         = scrape_targets api_key test_mode test_limit (S i) rest (r, w2)).
Proof.
  intros Hk Hres Hne Ht Hg Hs Hx He.
  assert (_fetch_work_details api_key work_id w = (Ok None, w2)) as Hf
    by by eapply fetch_error_response.
  split; [by eapply parse_error_element|]. split; [done|].
  intros r test_mode test_limit i rest.
  assert (scrape_target api_key target (r, w) = (Ok tt, (r, w2))) as Hskip
    by by eapply scrape_target_not_fetched.
  split; [done|]. intros Hgo. by apply scrape_targets_cons.
Qed.

(** C8. When the fetch and the normalisation of a target succeed and the
    row-store write is refused ([_create_product], or [_update_product] on
    an existing row, returns [False]), the loop counts the target in
    [products_found], leaves [products_added] and [products_updated] as
    they were, and passes to the next target. *)
Theorem write_failure_still_found (target : Val) (work_id : string)
    (source_url : Val) (work_data p : gmap string Val)
    (existing : option (gmap string Val)) (w w1 w2 w3 w4 : World) :
  resolve_target target = (Some work_id, source_url) →
  work_id ≠ "" →
  _fetch_work_details api_key work_id w = (Ok (Some work_data), w1) →
  truthy_dict work_data = true →
  _create_product_dict work_data source_url w1 = (Ok p, w2) →
  _product_exists
    (py_or (dict_get p "url" VNone)
           (VStr ("https://www.librarything.com/work/" +:+ work_id))) w2
    = (Ok existing, w3) →
  match existing with
  | None => _create_product p w3 = (Ok false, w4)
  | Some row =>
      truthy_dict row = true
      ∧ ∃ product_id, row !! "id" = Some product_id
                      ∧ _update_product product_id p w3 = (Ok false, w4)
  end →
  ∀ (r : Results) (test_mode : bool) (test_limit : Z) (i : nat) (rest : list Val),
    ∃ r',
      scrape_target api_key target (r, w) = (Ok tt, (r', w4))
      ∧ products_found r' = S (products_found r)
      ∧ products_added r' = products_added r
      ∧ products_updated r' = products_updated r
      ∧ (test_mode && (test_limit <=? Z.of_nat i)%Z = false →
         scrape_targets api_key test_mode test_limit i (target :: rest) (r, w)
         = scrape_targets api_key test_mode test_limit (S i) rest (r', w4)).
Proof.
  intros Hres Hne Hf Htd Hc Hex Hwrite r test_mode test_limit i rest.
  exists (incr_products_found r).
  assert (scrape_target api_key target (r, w)
          = (Ok tt, (incr_products_found r, w4))) as Hrun.
  { unfold scrape_target, scrape_target_try. rewrite Hres.
    apply String.eqb_neq in Hne. rewrite Hne. unfold_m.
    rewrite Hf, Htd. cbn [negb]. rewrite Hc, Hex.
    destruct existing as [row|].
    - destruct Hwrite as (Hrow & product_id & Hid & Hup).
      by rewrite Hrow, Hid, Hup.
    - by rewrite Hwrite. }
  split; [done|]. repeat split; try done.
  intros Hgo. by apply scrape_targets_cons.
Qed.
End Run.

Section Report.
Context `{PyLib} {World : Type} `{BaseScraper World}.
Variable api_key : Val.

(** *** The three ways through the body of [scrape] *)

Lemma scrape_try_no_key (start_time : Z) (test_mode : bool) (test_limit : Z)
    (urls : option (list Val)) (r : Results) (w : World) :
  truthy api_key = false →
  scrape_try api_key start_time test_mode test_limit urls (r, w)
  = (Ok tt, (set_message no_api_key_message (set_status "warning" r), w)).
Proof. intros Hk. unfold scrape_try. by rewrite Hk. Qed.

Lemma scrape_try_no_targets (start_time : Z) (test_mode : bool) (test_limit : Z)
    (urls : option (list Val)) (r : Results) (w w1 : World) :
  truthy api_key = true →
  load_targets urls w = (Ok [], w1) →
  scrape_try api_key start_time test_mode test_limit urls (r, w)
  = (Ok tt,
     (set_duration_seconds ((datetime_now w1).1 - start_time)
        (set_message no_targets_message (set_status "warning" r)),
      (datetime_now w1).2)).
Proof.
  intros Hk Hl. unfold scrape_try. rewrite Hk. cbn [negb]. unfold_m.
  rewrite Hl. simpl.
  by destruct (datetime_now w1).
Qed.

Lemma scrape_try_targets (start_time : Z) (test_mode : bool) (test_limit : Z)
    (urls : option (list Val)) (targets : list Val) (r r1 : Results)
    (w w1 w2 : World) :
  truthy api_key = true →
  load_targets urls w = (Ok targets, w1) →
  targets ≠ [] →
  scrape_targets api_key test_mode test_limit 0 targets (r, w1) = (Ok tt, (r1, w2)) →
  let r2 := set_duration_seconds ((datetime_now w2).1 - start_time) r1 in
  scrape_try api_key start_time test_mode test_limit urls (r, w)
  = (Ok tt,
     (if (products_found r2 =? 0)%nat
      then set_message no_works_message (set_status "warning" r2)
      else set_message ("Scraped " +:+ pretty (products_found r2)
                        +:+ " works (API may have limited access)") r2,
      (datetime_now w2).2)).
Proof.
  intros Hk Hl Hne Hloop. unfold scrape_try. rewrite Hk. cbn [negb]. unfold_m.
  rewrite Hl. simpl. rewrite bool_decide_eq_false_2 by done.
  rewrite Hloop. destruct (datetime_now w2) as [now w3]. simpl.
  by destruct (products_found r1 =? 0)%nat.
Qed.

Lemma scrape_try_ok (start_time : Z) (test_mode : bool) (test_limit : Z)
    (urls : option (list Val)) (r : Results) (w : World) :
  ∃ r' w',
    scrape_try api_key start_time test_mode test_limit urls (r, w)
    = (Ok tt, (r', w'))
    ∧ (status r' = status r ∨ status r' = "warning")
    ∧ error_message r' = error_message r.
Proof.
  destruct (truthy api_key) eqn:Hk.
  - destruct (load_targets_ok urls w) as (targets & w1 & Hl).
    destruct (decide (targets = [])) as [->|Hne].
    + eexists _, _. split; [by apply scrape_try_no_targets|]. by split; [right|].
    + destruct (scrape_targets_ok api_key test_mode test_limit 0 targets (r, w1))
        as [[r1 w2] Hloop].
      eexists _, _. split; [by eapply scrape_try_targets|].
      destruct (scrape_targets_preserves api_key _ _ _ _ _ _ _ _ _ Hloop)
        as (_ & Hst & _ & Herr & _).
      destruct (products_found _ =? 0)%nat; simpl; by split; [auto|].
  - eexists _, _. split; [by apply scrape_try_no_key|]. by split; [right|].
Qed.

Lemma scrape_unfold (test_mode : bool) (test_limit : Z) (urls : option (list Val))
    (w : World) :
  scrape api_key test_mode test_limit urls w
  = match scrape_try api_key (datetime_now w).1 test_mode test_limit urls
            (initial_results, (datetime_now w).2) with
    | (Ok _, (results, w')) => (Ok results, w')
    | (Raise e, (_, w')) => scrape_except (datetime_now w).1 e w'
    end.
Proof. unfold scrape. unfold_m. by destruct (datetime_now w). Qed.

Lemma scrape_except_report (start_time : Z) (e : Exception) (w : World) :
  ∃ r,
    scrape_except start_time e w = (Ok r, (datetime_now w).2)
    ∧ status r = "error" ∧ is_Some (error_message r)
    ∧ products_found r = 0%nat ∧ products_added r = 0%nat
    ∧ products_updated r = 0%nat.
Proof.
  unfold scrape_except. unfold_m. destruct (datetime_now w) as [now w1].
  eexists. split; [done|]. simpl. repeat split; by eexists.
Qed.

(** C1. Whatever the arguments and whatever the HTTP client and the row
    store do, [scrape] returns a report and raises nothing; an exception
    raised while one target is processed is caught by the handler inside
    the loop, and the loop goes on with the next target. *)
Theorem scrape_never_raises (test_mode : bool) (test_limit : Z)
    (urls : option (list Val)) (w : World) :
  (∃ r w', scrape api_key test_mode test_limit urls w = (Ok r, w'))
  ∧ (∀ target s e s',
       scrape_target_try api_key target s = (Raise e, s') →
       scrape_target api_key target s = (Ok tt, s'))
  ∧ (∀ i target rest s,
       ∃ s', scrape_target api_key target s = (Ok tt, s')
             ∧ (test_mode && (test_limit <=? Z.of_nat i)%Z = false →
                scrape_targets api_key test_mode test_limit i (target :: rest) s
                = scrape_targets api_key test_mode test_limit (S i) rest s')).
Proof.
  split; [|split].
  - rewrite scrape_unfold.
    destruct (scrape_try_ok (datetime_now w).1 test_mode test_limit urls
                initial_results (datetime_now w).2) as (r & w' & -> & _).
    by eexists _, _.
  - intros target s e s' Hraise. unfold scrape_target.
    by rewrite (try_except_raise _ _ _ _ _ Hraise).
  - intros i target rest s.
    destruct (scrape_target_ok api_key target s) as [s' Hs].
    exists s'. split; [done|]. intros Hgo. by apply scrape_targets_cons.
Qed.

Lemma scrape_as_frame (test_mode : bool) (test_limit : Z)
    (urls : option (list Val)) :
  scrape api_key test_mode test_limit urls
  = scrape_around
      (fun start_time => scrape_try api_key start_time test_mode test_limit urls).
Proof. reflexivity. Qed.

Lemma scrape_around_unfold (body : Z → M (Results * World) unit) (w : World) :
  scrape_around body w
  = match body (datetime_now w).1 (initial_results, (datetime_now w).2) with
    | (Ok _, (results, w')) => (Ok results, w')
    | (Raise e, (_, w')) => scrape_except (datetime_now w).1 e w'
    end.
Proof. unfold scrape_around. unfold_m. by destruct (datetime_now w). Qed.

(** C2. When the loop over the targets finishes (API key present, at least
    one target resolved) the report has status [success] if
    [products_found] is at least one and [warning] if it is zero.  Status
    [error] comes only from the handler of the outer [try]: [scrape] is
    the frame [scrape_around] around its body; whenever the body inside
    that frame raises, the run returns a report with status [error], an
    [error_message] made from the exception and three counters at zero,
    whatever had been counted before; a run of the frame with status
    [error] is one whose body raised, or whose body itself returned that
    report; and the body of [scrape] leaves the status as it was or sets
    [warning]. *)
Theorem scrape_final_status (test_mode : bool) (test_limit : Z)
    (urls : option (list Val)) (targets : list Val) (w w1 : World) :
  truthy api_key = true →
  load_targets urls (datetime_now w).2 = (Ok targets, w1) →
  targets ≠ [] →
  (∃ r w',
     scrape api_key test_mode test_limit urls w = (Ok r, w')
     ∧ (1 ≤ products_found r → status r = "success")%nat
     ∧ (products_found r = 0%nat → status r = "warning")
     ∧ error_message r = None)
  ∧ scrape api_key test_mode test_limit urls
    = scrape_around
        (fun start_time => scrape_try api_key start_time test_mode test_limit urls)
  ∧ (∀ (body : Z → M (Results * World) unit) w0 e r1 w2,
       body (datetime_now w0).1 (initial_results, (datetime_now w0).2)
       = (Raise e, (r1, w2)) →
       ∃ r w',
         scrape_around body w0 = (Ok r, w')
         ∧ status r = "error"
         ∧ error_message r
           = Some ("Scraper error: " +:+ exc_str e
                   +:+ ". Note: LibraryThing API may be blocked by CloudFlare.")
         ∧ products_found r = 0%nat ∧ products_added r = 0%nat
         ∧ products_updated r = 0%nat)
  ∧ (∀ (body : Z → M (Results * World) unit) w0 r w',
       scrape_around body w0 = (Ok r, w') →
       status r = "error" →
       (∃ e s', body (datetime_now w0).1 (initial_results, (datetime_now w0).2)
                = (Raise e, s'))
       ∨ (∃ w2, body (datetime_now w0).1 (initial_results, (datetime_now w0).2)
                = (Ok tt, (r, w2))))
  ∧ (∀ start_time r0 w0 res r' w',
       scrape_try api_key start_time test_mode test_limit urls (r0, w0)
       = (res, (r', w')) →
       res = Ok tt ∧ (status r' = status r0 ∨ status r' = "warning")).
Proof.
  intros Hk Hl Hne. split; [|split; [|split; [|split]]].
  - destruct (scrape_targets_ok api_key test_mode test_limit 0 targets
                (initial_results, w1)) as [[r1 w2] Hloop].
    rewrite scrape_unfold.
    rewrite (scrape_try_targets _ _ _ _ _ _ _ _ _ _ Hk Hl Hne Hloop).
    destruct (scrape_targets_preserves api_key _ _ _ _ _ _ _ _ _ Hloop)
      as (_ & Hst & _ & Herr & _).
    eexists _, _. split; [done|].
    simpl. destruct (products_found r1 =? 0)%nat eqn:Hf; simpl.
    + apply Nat.eqb_eq in Hf. split; [lia|]. by split.
    + apply Nat.eqb_neq in Hf. split; [by intros _|]. split; [lia | done].
  - apply scrape_as_frame.
  - intros body w0 e r1 w2 Hb. rewrite scrape_around_unfold, Hb.
    unfold scrape_except. unfold_m. destruct (datetime_now w2) as [now w3].
    by eexists _, _.
  - intros body w0 r w'. rewrite scrape_around_unfold.
    destruct (body _ _) as [[[]|e] [r1 w2]].
    + intros [= <- <-] _. right. by exists w2.
    + intros _ _. left. by eexists _, _.
  - intros start_time r0 w0 res r' w' Ht.
    destruct (scrape_try_ok start_time test_mode test_limit urls r0 w0)
      as (r2 & w2 & Ht2 & Hst & _).
    rewrite Ht in Ht2. by injection Ht2 as -> -> _.
Qed.

(** C3. Without an API key, or with a key but nothing to scrape (no
    [urls] given, or an empty list, and no stored search term for platform
    [goat]), [scrape] stops early and returns, without raising, a report
    with status [warning], a message that says why, and all three counters
    at zero. *)
Theorem scrape_not_configured (test_mode : bool) (test_limit : Z)
    (urls : option (list Val)) (w : World) :
  (truthy api_key = false →
   ∃ r w',
     scrape api_key test_mode test_limit urls w = (Ok r, w')
     ∧ status r = "warning" ∧ message r = Some no_api_key_message
     ∧ products_found r = 0%nat ∧ products_added r = 0%nat
     ∧ products_updated r = 0%nat)
  ∧ (truthy api_key = true →
     urls = None ∨ urls = Some [] →
     ∀ w1, select_search_terms (datetime_now w).2 = (Ok [], w1) →
     ∃ r w',
       scrape api_key test_mode test_limit urls w = (Ok r, w')
       ∧ status r = "warning" ∧ message r = Some no_targets_message
       ∧ products_found r = 0%nat ∧ products_added r = 0%nat
       ∧ products_updated r = 0%nat).
Proof.
  split.
  - intros Hk. rewrite scrape_unfold, scrape_try_no_key by done.
    by eexists _, _.
  - intros Hk Hurls w1 Hsel. rewrite scrape_unfold.
    assert (load_targets urls (datetime_now w).2 = (Ok [], w1)) as Hl.
    { unfold load_targets. destruct Hurls as [-> | ->]; unfold_m; by rewrite Hsel. }
    rewrite (scrape_try_no_targets _ _ _ _ _ _ _ Hk Hl).
    by eexists _, _.
Qed.
End Report.

(** ** The theorems at work on sample runs *)

Lemma extract_work_id_spec_witness :
  (∃ pre rest, work_segment "http://librarything.com/work/12345" pre "12345" rest)
  ∧ ¬ ∃ pre ds rest, work_segment "https://www.librarything.com/user/someuser" pre ds rest.
Proof.
  destruct extract_work_id_spec as (_ & _ & Hsome & Hnone). split.
  - destruct (proj1 (Hsome "http://librarything.com/work/12345" "12345") eq_refl)
      as (pre & rest & Hw & _).
    by exists pre, rest.
  - exact (proj1 (Hnone "https://www.librarything.com/user/someuser") eq_refl).
Defined.

Lemma scrape_never_raises_witness :
  (∃ e s s',
     @scrape_target_try sample_pylib nat (scripted lookup_raises_once) (VStr "k")
       (VStr "35356138") s = (Raise e, s')
     ∧ @scrape_target sample_pylib nat (scripted lookup_raises_once) (VStr "k")
         (VStr "35356138") s = (Ok tt, s'))
  ∧ ∃ r w',
      @scrape sample_pylib nat (scripted lookup_raises_once) (VStr "k") false 5
        (Some [VStr "35356138";
               VStr "https://www.librarything.com/work/35356138/book/302275636"])
        0%nat = (Ok r, w')
      ∧ products_found r = 1%nat ∧ products_added r = 1%nat.
Proof.
  destruct (@scrape_never_raises sample_pylib nat (scripted lookup_raises_once)
              (VStr "k") false 5
              (Some [VStr "35356138";
                     VStr "https://www.librarything.com/work/35356138/book/302275636"])
              0%nat) as ((r & w' & Hr) & Hcaught & _).
  split.
  - exists boom, (initial_results, 0%nat), (initial_results, 1%nat).
    assert (@scrape_target_try sample_pylib nat (scripted lookup_raises_once)
              (VStr "k") (VStr "35356138") (initial_results, 0%nat)
            = (Raise boom, (initial_results, 1%nat))) as Hraise by by vm_compute.
    split; [done|]. by apply (Hcaught _ _ boom).
  - exists r, w'. split; [done|]. vm_compute in Hr. by injection Hr as <- _.
Defined.

Lemma loop_then_boom_run :
  ∃ r1 w2,
    loop_then_boom 0 (initial_results, 1%nat) = (Raise boom, (r1, w2))
    ∧ products_found r1 = 1%nat.
Proof. eexists _, _. split; vm_compute; reflexivity. Qed.

Lemma scrape_final_status_witness :
  (∃ r w',
     @scrape sample_pylib nat (scripted healthy) (VStr "k") false 5
       (Some [VStr "35356138"]) 0%nat = (Ok r, w')
     ∧ products_found r = 1%nat ∧ status r = "success")
  ∧ (∃ r w',
      @scrape sample_pylib nat (scripted healthy) (VStr "k") false 5
        (Some [VStr "1"]) 0%nat = (Ok r, w')
      ∧ products_found r = 0%nat ∧ status r = "warning")
  ∧ ∃ r1 w2 r w',
      loop_then_boom 0 (initial_results, 1%nat) = (Raise boom, (r1, w2))
      ∧ products_found r1 = 1%nat
      ∧ @scrape_around nat (scripted healthy) loop_then_boom 0%nat = (Ok r, w')
      ∧ status r = "error"
      ∧ error_message r
        = Some "Scraper error: connection reset. Note: LibraryThing API may be blocked by CloudFlare."
      ∧ products_found r = 0%nat ∧ products_added r = 0%nat
      ∧ products_updated r = 0%nat.
Proof.
  split; [|split].
  - destruct (@scrape_final_status sample_pylib nat (scripted healthy) (VStr "k")
                false 5 (Some [VStr "35356138"]) [VStr "35356138"] 0%nat 1%nat
                eq_refl eq_refl ltac:(done))
      as ((r & w' & Hr & Hsucc & _) & _).
    exists r, w'. split; [done|].
    assert (products_found r = 1%nat) as Hf
      by (vm_compute in Hr; by injection Hr as <- _).
    split; [done|]. apply Hsucc. by rewrite Hf.
  - destruct (@scrape_final_status sample_pylib nat (scripted healthy) (VStr "k")
                false 5 (Some [VStr "1"]) [VStr "1"] 0%nat 1%nat
                eq_refl eq_refl ltac:(done))
      as ((r & w' & Hr & _ & Hwarn & _) & _).
    exists r, w'. split; [done|].
    assert (products_found r = 0%nat) as Hf
      by (vm_compute in Hr; by injection Hr as <- _).
    split; [done|]. by apply Hwarn.
  - destruct loop_then_boom_run as (r1 & w2 & Hb & Hf1).
    destruct (@scrape_final_status sample_pylib nat (scripted healthy) (VStr "k")
                false 5 (Some [VStr "1"]) [VStr "1"] 0%nat 1%nat
                eq_refl eq_refl ltac:(done))
      as (_ & _ & Herror & _).
    destruct (Herror loop_then_boom 0%nat boom r1 w2 Hb)
      as (r & w' & Hr & Hst & Hmsg & Hf & Ha & Hu).
    exists r1, w2, r, w'. repeat split; done.
Defined.

Lemma scrape_not_configured_witness :
  (∃ r w',
     @scrape sample_pylib nat (scripted healthy) VNone false 5
       (Some [VStr "35356138"]) 0%nat = (Ok r, w')
     ∧ status r = "warning" ∧ products_found r = 0%nat)
  ∧ ∃ r w',
      @scrape sample_pylib nat (scripted healthy) (VStr "k") false 5 None 0%nat
      = (Ok r, w')
      ∧ status r = "warning" ∧ message r = Some no_targets_message.
Proof.
  split.
  - destruct (@scrape_not_configured sample_pylib nat (scripted healthy) VNone
                false 5 (Some [VStr "35356138"]) 0%nat) as [Hnokey _].
    destruct (Hnokey eq_refl) as (r & w' & Hr & Hst & _ & Hf & _).
    by exists r, w'.
  - destruct (@scrape_not_configured sample_pylib nat (scripted healthy) (VStr "k")
                false 5 None 0%nat) as [_ Hnone].
    destruct (Hnone eq_refl (or_introl eq_refl) 1%nat eq_refl)
      as (r & w' & Hr & Hst & Hm & _).
    by exists r, w'.
Defined.

Lemma error_response_is_skipped_witness :
  @_parse_xml_response sample_pylib error_xml "1" = None
  ∧ @scrape_target sample_pylib nat (scripted healthy) (VStr "k") (VStr "1")
      (initial_results, 0%nat) = (Ok tt, (initial_results, 0%nat))
  ∧ @_parse_xml_response sample_pylib bare_error_xml "1" = None.
Proof.
  destruct (@error_response_is_skipped sample_pylib nat (scripted healthy)
              (VStr "k") (VStr "1") "1" VNone 0%nat 0%nat 0%nat
              (mkResponse 200 error_xml) error_tree
              (Elem "error" None [Elem "message" (Some "Work not found") []])
              eq_refl eq_refl ltac:(done) eq_refl eq_refl eq_refl eq_refl eq_refl)
    as (Hparse & _ & Hloop).
  split; [exact Hparse|]. split; [|by vm_compute].
  exact (proj1 (Hloop initial_results false 5%Z 0%nat [])).
Defined.

Lemma write_failure_still_found_witness :
  (∃ r' w',
     @scrape_target sample_pylib nat (scripted insert_fails) (VStr "k")
       (VStr "35356138") (initial_results, 0%nat) = (Ok tt, (r', w'))
     ∧ products_found r' = 1%nat ∧ products_added r' = 0%nat
     ∧ products_updated r' = 0%nat)
  ∧ ∃ r' w',
      @scrape_target sample_pylib nat (scripted update_fails) (VStr "k")
        (VStr "35356138") (initial_results, 0%nat) = (Ok tt, (r', w'))
      ∧ products_found r' = 1%nat ∧ products_added r' = 0%nat
      ∧ products_updated r' = 0%nat.
Proof.
  split.
  - edestruct (@write_failure_still_found sample_pylib nat (scripted insert_fails)
                 (VStr "k") (VStr "35356138") "35356138" VNone)
      as (r' & Hrun & Hf & Ha & Hu & _).
    + reflexivity.
    + done.
    + vm_compute. reflexivity.
    + by vm_compute.
    + vm_compute. reflexivity.
    + vm_compute. reflexivity.
    + simpl. vm_compute. reflexivity.
    + exists r'. eexists. split; [exact Hrun|]. by rewrite Hf, Ha, Hu.
  - edestruct (@write_failure_still_found sample_pylib nat (scripted update_fails)
                 (VStr "k") (VStr "35356138") "35356138" VNone)
      as (r' & Hrun & Hf & Ha & Hu & _).
    + reflexivity.
    + done.
    + vm_compute. reflexivity.
    + by vm_compute.
    + vm_compute. reflexivity.
    + vm_compute. reflexivity.
    + simpl. split; [by vm_compute|]. eexists. split; vm_compute; reflexivity.
    + exists r'. eexists. split; [exact Hrun|]. by rewrite Hf, Ha, Hu.
  Unshelve. all: first [exact initial_results | exact false | exact 0%Z | exact 0%nat | exact []].
Defined.

(** ** The row store *)

Lemma rows_with_url_head (ps : gmap string (gmap string Val)) (url : Val)
    (k : string) (row : gmap string Val) :
  head (rows_with_url ps url) = Some (k, row) →
  ps !! k = Some row ∧ row !! "url" = Some url.
Proof.
  intros Hh. apply head_Some_elem_of in Hh.
  apply list_elem_of_filter in Hh as [Hu Hin].
  by apply elem_of_map_to_list in Hin.
Qed.

Lemma rows_with_url_none (ps : gmap string (gmap string Val)) (url : Val) :
  head (rows_with_url ps url) = None → ¬ known ps url.
Proof.
  intros Hh (k & row & Hk & Hu). apply head_None in Hh.
  assert ((k, row) ∈ rows_with_url ps url) as Hin.
  { apply list_elem_of_filter. split; [done|]. by apply elem_of_map_to_list. }
  rewrite Hh in Hin. by apply elem_of_nil in Hin.
Qed.

Lemma known_alter (ps : gmap string (gmap string Val)) (p row : gmap string Val)
    (k : string) (url url' : Val) :
  ps !! k = Some row → row !! "url" = Some url → p !! "url" = Some url →
  known ps url' → known (alter (fun row => p ∪ row) k ps) url'.
Proof.
  intros Hk Hrow Hp (k' & row' & Hk' & Hu').
  destruct (decide (k' = k)) as [->|Hne].
  - exists k, (p ∪ row). rewrite lookup_alter_eq, Hk. split; [done|].
    rewrite Hk in Hk'. injection Hk' as <-. rewrite Hrow in Hu'.
    injection Hu' as <-. by apply lookup_union_Some_l.
  - exists k', row'. by rewrite lookup_alter_ne.
Qed.

Lemma known_insert_fresh (ps : gmap string (gmap string Val)) (p : gmap string Val)
    (url' : Val) :
  known ps url' → known (<[fresh (dom ps) := p]> ps) url'.
Proof.
  intros (k & row & Hk & Hu). exists k, row. split; [|done].
  rewrite lookup_insert_ne; [done|]. intros Heq.
  pose proof (is_fresh (dom ps)) as Hfresh. rewrite Heq in Hfresh.
  apply Hfresh, elem_of_dom. by eexists.
Qed.

Lemma known_insert (ps : gmap string (gmap string Val)) (p : gmap string Val)
    (k : string) (url : Val) :
  p !! "url" = Some url → known (<[k := p]> ps) url.
Proof. intros Hp. exists k, p. by rewrite lookup_insert_eq. Qed.

Lemma py_or_truthy (a b : Val) : truthy a = true → py_or a b = a.
Proof. intros Ha. unfold py_or. by rewrite Ha. Qed.

Section TwoRuns.
Context `{PyLib}.
Variable upstream : string → list (string * Val) → Result Response.
Variable terms : list (gmap string Val).
Variable api_key : Val.

#[local] Abbreviation B := (store_scraper upstream terms).

Lemma store_fetch (work_id : string) (w : Store) :
  @_fetch_work_details _ Store B api_key work_id w
  = (Ok (upstream_fetch upstream api_key work_id), w).
Proof.
  unfold _fetch_work_details, upstream_fetch.
  destruct (negb (truthy api_key)); [done|].
  unfold_m. simpl.
  destruct (upstream _ _) as [response|e]; simpl.
  - by destruct (negb (status_code response =? 200)%Z).
  - by destruct (exc_class e).
Qed.

Lemma store_load_targets (urls : option (list Val)) (w : Store) :
  @load_targets Store B urls w = (Ok (resolved_targets urls terms), w).
Proof. unfold load_targets, resolved_targets. by destruct urls as [[|u us]|]. Qed.

Lemma target_url_truthy (target u : Val) :
  target_url upstream api_key target = Some u →
  ∃ work_id source_url work_data,
    resolve_target target = (Some work_id, source_url)
    ∧ String.eqb work_id "" = false
    ∧ upstream_fetch upstream api_key work_id = Some work_data
    ∧ truthy_dict work_data = true
    ∧ u = py_or source_url (dict_get work_data "url" VNone)
    ∧ py_or u (VStr ("https://www.librarything.com/work/" +:+ work_id)) = u.
Proof.
  unfold target_url.
  destruct (resolve_target target) as [[work_id|] source_url]; [|done].
  destruct (String.eqb work_id "") eqn:Hid; [done|].
  destruct (upstream_fetch upstream api_key work_id) as [work_data|] eqn:Hf; [|done].
  destruct (truthy_dict work_data) eqn:Ht; [|done].
  intros [= <-]. exists work_id, source_url, work_data.
  assert (truthy (py_or source_url (dict_get work_data "url" VNone)) = true) as Htr.
  { unfold upstream_fetch in Hf. destruct (negb (truthy api_key)); [done|].
    destruct (upstream _ _) as [response|]; [|done].
    destruct (negb _); [done|]. apply parse_some in Hf as [_ Hurl].
    unfold py_or, dict_get. rewrite Hurl. simpl.
    by destruct (truthy source_url) eqn:Hs. }
  rewrite !(py_or_truthy _ _ Htr). by repeat split.
Qed.

(** A target that is not fetched leaves the report and the store alone. *)
Lemma store_step_skip (target : Val) (r : Results) (w : Store) :
  target_url upstream api_key target = None →
  @scrape_target _ Store B api_key target (r, w) = (Ok tt, (r, w)).
Proof.
  unfold target_url, scrape_target, scrape_target_try.
  destruct (resolve_target target) as [[work_id|] source_url]; [|done].
  destruct (String.eqb work_id "") eqn:Hid; [done|].
  unfold mbind at 1. unfold M_bind at 1. unfold on_world at 1, try_except.
  rewrite store_fetch.
  destruct (upstream_fetch upstream api_key work_id) as [work_data|]; [|done].
  by destruct (truthy_dict work_data).
Qed.

(** A target that is fetched is counted; it is inserted when its url is
    new and updated in place when its url is known; no url is lost. *)
Lemma store_step_fetch (target u : Val) (r : Results) (w : Store) :
  target_url upstream api_key target = Some u →
  ∃ r' w',
    @scrape_target _ Store B api_key target (r, w) = (Ok tt, (r', w'))
    ∧ products_found r' = S (products_found r)
    ∧ known (products w') u
    ∧ (∀ u', known (products w) u' → known (products w') u')
    ∧ (known (products w) u →
       products_added r' = products_added r
       ∧ products_updated r' = S (products_updated r)
       ∧ dom (products w') = dom (products w)).
Proof.
  intros Hu.
  destruct (target_url_truthy target u Hu)
    as (work_id & source_url & work_data & Hres & Hid & Hf & Ht & Hurl & Hor).
  destruct (@create_product_dict_ok _ Store B work_data source_url w)
    as (p & Hc & _ & _ & Hpurl & _).
  rewrite <- Hurl in Hpurl.
  assert (py_or (dict_get p "url" VNone)
            (VStr ("https://www.librarything.com/work/" +:+ work_id)) = u) as Hpu
    by (unfold dict_get; by rewrite Hpurl).
  unfold scrape_target, scrape_target_try. rewrite Hres, Hid.
  unfold_m. rewrite store_fetch, Hf, Ht. cbn [negb]. rewrite Hc, Hpu.
  cbn [_product_exists store_scraper datetime_now snd products].
  destruct (head (rows_with_url (products w) u)) as [[k row]|] eqn:Hh.
  - apply rows_with_url_head in Hh as [Hk Hrow].
    cbn [fmap option_fmap option_map fst snd].
    assert (truthy_dict (<["id" := VStr k]> row) = true) as ->.
    { unfold truthy_dict. rewrite bool_decide_eq_false_2; [done|].
      apply insert_non_empty. }
    rewrite lookup_insert_eq.
    cbn [_update_product super_update_product store_scraper set_products
           products clock].
    eexists _, _. split; [done|]. cbn [products].
    split; [done|]. split.
    { apply (known_alter _ _ row _ u); [done..|]. by exists k, row. }
    split; [intros u'; by apply (known_alter _ _ row _ u)|].
    intros _. split; [done|]. split; [done|]. apply dom_alter_L.
  - apply rows_with_url_none in Hh.
    cbn [fmap option_fmap option_map].
    cbn [_create_product super_create_product store_scraper set_products
           products clock].
    eexists _, _. split; [done|]. cbn [products].
    split; [done|]. split; [by apply known_insert|].
    split; [intros u'; apply known_insert_fresh|]. done.
Qed.
End TwoRuns.

Section Idempotence.
Context `{PyLib}.
Variable upstream : string → list (string * Val) → Result Response.
Variable terms : list (gmap string Val).
Variable api_key : Val.

#[local] Abbreviation S0 := (store_scraper upstream terms).
#[local] Abbreviation url_of := (target_url upstream api_key).
#[local] Abbreviation count := (fetched_count upstream api_key).

Lemma fetched_count_cons_some (t u : Val) (ts : list Val) :
  url_of t = Some u → count (t :: ts) = S (count ts).
Proof.
  intros Hu. unfold fetched_count. rewrite filter_cons_True; [done|].
  rewrite Hu. by eexists.
Qed.

Lemma fetched_count_cons_none (t : Val) (ts : list Val) :
  url_of t = None → count (t :: ts) = count ts.
Proof.
  intros Hu. unfold fetched_count. rewrite filter_cons_False; [done|].
  rewrite Hu. by intros [? ?].
Qed.

Lemma target_url_no_key (t : Val) : truthy api_key = false → url_of t = None.
Proof.
  intros Hk. unfold target_url, upstream_fetch. rewrite Hk.
  destruct (resolve_target t) as [[work_id|] ?]; [|done].
  by destruct (String.eqb work_id "").
Qed.

(** A run of the loop on any store: every fetched target is counted and
    its url is in the store afterwards; nothing known is forgotten. *)
Lemma store_loop_first (test_limit : Z) (ts : list Val) (i : nat)
    (r : Results) (w : Store) :
  ∃ r' w',
    @scrape_targets _ Store S0 api_key false test_limit i ts (r, w)
    = (Ok tt, (r', w'))
    ∧ products_found r' = (products_found r + count ts)%nat
    ∧ (∀ u, known (products w) u → known (products w') u)
    ∧ (∀ t u, t ∈ ts → url_of t = Some u → known (products w') u).
Proof.
  revert i r w. induction ts as [|t ts IH]; intros i r w.
  - exists r, w. split; [done|]. split; [unfold fetched_count; simpl; lia|].
    split; [done|]. intros t u Hin. by apply elem_of_nil in Hin.
  - cbn [scrape_targets andb]. unfold mbind, M_bind.
    destruct (url_of t) as [u|] eqn:Hu.
    + destruct (store_step_fetch upstream terms api_key t u r w Hu)
        as (r1 & w1 & -> & Hf & Hk & Hmono & _).
      destruct (IH (S i) r1 w1) as (r' & w' & Hl & Hf' & Hmono' & Hall).
      exists r', w'. split; [done|].
      split; [rewrite Hf', Hf, (fetched_count_cons_some t u) by done; lia|].
      split; [by eauto|].
      intros t' u' Hin Hu'. apply elem_of_cons in Hin as [->|Hin]; [|by eauto].
      rewrite Hu in Hu'. injection Hu' as <-. by apply Hmono'.
    + rewrite (store_step_skip upstream terms api_key t r w Hu).
      destruct (IH (S i) r w) as (r' & w' & Hl & Hf' & Hmono' & Hall).
      exists r', w'. split; [done|].
      split; [by rewrite Hf', fetched_count_cons_none|].
      split; [done|].
      intros t' u' Hin Hu'. apply elem_of_cons in Hin as [->|Hin]; [|by eauto].
      congruence.
Qed.

(** A run of the loop on a store that knows the url of every fetched
    target: each of them is updated, none is inserted. *)
Lemma store_loop_second (test_limit : Z) (ts : list Val) (i : nat)
    (r : Results) (w : Store) :
  (∀ t u, t ∈ ts → url_of t = Some u → known (products w) u) →
  ∃ r' w',
    @scrape_targets _ Store S0 api_key false test_limit i ts (r, w)
    = (Ok tt, (r', w'))
    ∧ products_found r' = (products_found r + count ts)%nat
    ∧ products_updated r' = (products_updated r + count ts)%nat
    ∧ products_added r' = products_added r
    ∧ dom (products w') = dom (products w).
Proof.
  revert i r w. induction ts as [|t ts IH]; intros i r w Hknown.
  - exists r, w. split; [done|]. unfold fetched_count. simpl.
    repeat split; lia.
  - cbn [scrape_targets andb]. unfold mbind, M_bind.
    destruct (url_of t) as [u|] eqn:Hu.
    + destruct (store_step_fetch upstream terms api_key t u r w Hu)
        as (r1 & w1 & -> & Hf & _ & Hmono & Hupd).
      destruct Hupd as (Ha & Hup & Hdom);
        [apply (Hknown t); [apply elem_of_cons; by left | done]|].
      destruct (IH (S i) r1 w1) as (r' & w' & Hl & Hf' & Hu' & Ha' & Hdom').
      { intros t' u' Hin Hurl. apply Hmono, (Hknown t'); [|done].
        apply elem_of_cons. by right. }
      exists r', w'. split; [done|].
      rewrite (fetched_count_cons_some t u) by done.
      rewrite Hf', Hu', Ha', Hdom', Hf, Hup, Ha, Hdom. repeat split; lia.
    + rewrite (store_step_skip upstream terms api_key t r w Hu).
      destruct (IH (S i) r w) as (r' & w' & Hl & Hrest).
      { intros t' u' Hin Hurl. apply (Hknown t'); [|done].
        apply elem_of_cons. by right. }
      exists r', w'. split; [done|]. by rewrite fetched_count_cons_none.
Qed.

Lemma store_loop_no_key (test_limit : Z) (ts : list Val) (i : nat)
    (s : Results * Store) :
  truthy api_key = false →
  @scrape_targets _ Store S0 api_key false test_limit i ts s = (Ok tt, s).
Proof.
  intros Hk. revert i. induction ts as [|t ts IH]; intros i; [done|].
  cbn [scrape_targets andb]. unfold mbind, M_bind. destruct s as [r w].
  rewrite (store_step_skip upstream terms api_key t r w) by by apply target_url_no_key.
  apply IH.
Qed.

Lemma scrape_targets_attempted (test_mode : bool) (test_limit : Z)
    (ts : list Val) (s : Results * Store) :
  @scrape_targets _ Store S0 api_key test_mode test_limit 0 ts s
  = @scrape_targets _ Store S0 api_key false test_limit 0
      (attempted test_mode test_limit ts) s.
Proof.
  unfold attempted. destruct test_mode; [|done].
  rewrite scrape_targets_test_limit. by rewrite Nat.sub_0_r.
Qed.

(** A run of [scrape] is, for its counters and its store, the loop on the
    attempted targets. *)
Lemma store_scrape_as_loop (test_mode : bool) (test_limit : Z)
    (urls : option (list Val)) (w : Store) :
  ∃ r1 w1 r w',
    @scrape _ Store S0 api_key test_mode test_limit urls w = (Ok r, w')
    ∧ @scrape_targets _ Store S0 api_key false test_limit 0
        (attempted test_mode test_limit (resolved_targets urls terms))
        (initial_results, (@datetime_now Store S0 w).2) = (Ok tt, (r1, w1))
    ∧ products w' = products w1
    ∧ products_found r = products_found r1
    ∧ products_added r = products_added r1
    ∧ products_updated r = products_updated r1.
Proof.
  rewrite scrape_unfold. set (w0 := (@datetime_now Store S0 w).2).
  set (start := (@datetime_now Store S0 w).1).
  destruct (truthy api_key) eqn:Hk.
  - pose proof (store_load_targets upstream terms urls w0) as Hl.
    destruct (decide (resolved_targets urls terms = [])) as [Hnil|Hne].
    + rewrite Hnil in *. rewrite (scrape_try_no_targets _ _ _ _ _ _ _ _ Hk Hl).
      exists initial_results, w0. eexists _, _. split; [done|].
      split; [unfold attempted; destruct test_mode; by rewrite ?take_nil|].
      done.
    + destruct (@scrape_targets_ok _ Store S0 api_key test_mode test_limit 0
                  (resolved_targets urls terms) (initial_results, w0))
        as [[r1 w1] Hloop].
      rewrite (scrape_try_targets _ _ _ _ _ _ _ _ _ _ _ Hk Hl Hne Hloop).
      exists r1, w1. eexists _, _. split; [done|].
      split; [by rewrite <- scrape_targets_attempted|].
      cbn [snd]. split; [done|].
      by destruct (products_found _ =? 0)%nat.
  - rewrite scrape_try_no_key by done.
    exists initial_results, w0. eexists _, _. split; [done|].
    split; [by apply store_loop_no_key|]. done.
Qed.

(** C5. Two runs of [scrape] with the same arguments, against an upstream
    that answers the same way and a row store as the specification
    describes it: the second run inserts nothing and updates one product
    for every target fetched successfully, which is also what both runs
    report as found; the table has the same rows after it as before. *)
Theorem second_run_only_updates (test_mode : bool) (test_limit : Z)
    (urls : option (list Val)) (w : Store) :
  ∃ r1 w1 r2 w2,
    @scrape _ Store S0 api_key test_mode test_limit urls w = (Ok r1, w1)
    ∧ @scrape _ Store S0 api_key test_mode test_limit urls w1 = (Ok r2, w2)
    ∧ products_added r2 = 0%nat
    ∧ products_updated r2
      = count (attempted test_mode test_limit (resolved_targets urls terms))
    ∧ products_found r2 = products_updated r2
    ∧ products_found r1 = products_found r2
    ∧ dom (products w2) = dom (products w1).
Proof.
  destruct (store_scrape_as_loop test_mode test_limit urls w)
    as (ra & wa & r1 & w1 & Hrun1 & Hloop1 & Hps1 & Hf1 & _).
  destruct (store_loop_first test_limit
              (attempted test_mode test_limit (resolved_targets urls terms))
              0 initial_results (@datetime_now Store S0 w).2)
    as (ra' & wa' & Hloop1' & Hfa & _ & Hknown).
  rewrite Hloop1 in Hloop1'. injection Hloop1' as <- <-.
  destruct (store_scrape_as_loop test_mode test_limit urls w1)
    as (rb & wb & r2 & w2 & Hrun2 & Hloop2 & Hps2 & Hf2 & Ha2 & Hu2).
  destruct (store_loop_second test_limit
              (attempted test_mode test_limit (resolved_targets urls terms))
              0 initial_results (@datetime_now Store S0 w1).2)
    as (rb' & wb' & Hloop2' & Hfb & Hub & Hab & Hdom).
  { intros t u Hin Hu. cbn [datetime_now store_scraper snd products].
    rewrite Hps1. by apply (Hknown t). }
  rewrite Hloop2 in Hloop2'. injection Hloop2' as <- <-.
  exists r1, w1, r2, w2. split; [done|]. split; [done|].
  rewrite Hf1, Hf2, Ha2, Hu2, Hfa, Hfb, Hub, Hab, Hps2, Hdom. simpl.
  repeat split; lia.
Qed.
End Idempotence.

(** Two runs on an empty store, upstream serving the sample payloads: the
    first run inserts the one work that can be fetched, the second updates
    it. *)
Lemma second_run_only_updates_witness :
  let run := @scrape sample_pylib Store
               (store_scraper (fun _ params => sample_upstream (requested_id params)) [])
               (VStr "k") false 5
               (Some [VStr "https://www.librarything.com/work/35356138/book/1"; VStr "1"]) in
  ∃ r1 w1 r2 w2,
    run (mkStore ∅ 0) = (Ok r1, w1) ∧ run w1 = (Ok r2, w2)
    ∧ (products_found r1, products_added r1, products_updated r1) = (1, 1, 0)%nat
    ∧ (products_found r2, products_added r2, products_updated r2) = (1, 0, 1)%nat
    ∧ size (products w2) = 1%nat.
Proof.
  destruct (@second_run_only_updates sample_pylib
              (fun _ params => sample_upstream (requested_id params)) [] (VStr "k")
              false 5
              (Some [VStr "https://www.librarything.com/work/35356138/book/1"; VStr "1"])
              (mkStore ∅ 0))
    as (r1 & w1 & r2 & w2 & H1 & H2 & _).
  cbv zeta. exists r1, w1, r2, w2. split; [done|]. split; [done|].
  vm_compute in H1. injection H1 as <- <-.
  vm_compute in H2. injection H2 as <- <-.
  by vm_compute.
Defined.

(** * Further properties of the adapter *)

(** ** Strings *)

Lemma contains_spec (s p : string) :
  contains s p = true ↔ ∃ pre post, s = pre +:+ p +:+ post.
Proof.
  induction s as [|c s IH].
  - cbn [contains]. rewrite orb_false_r, prefix_app. split.
    + intros [r Hr]. by exists "", r.
    + intros (pre & post & Hs). destruct pre; [by exists post|discriminate].
  - cbn [contains]. rewrite orb_true_iff, prefix_app, IH. split.
    + intros [[r Hr] | (pre & post & Hs)].
      * by exists "", r.
      * exists (String c pre), post. by rewrite append_cons, Hs.
    + intros (pre & post & Hs). destruct pre as [|c' pre].
      * left. by exists post.
      * right. rewrite append_cons in Hs. injection Hs as _ Hs. by exists pre, post.
Qed.

Lemma lower_char_idemp (c : ascii) : lower_char (lower_char c) = lower_char c.
Proof. by destruct c as [[] [] [] [] [] [] [] []]. Qed.

Lemma lower_idemp (s : string) : lower (lower s) = lower s.
Proof. induction s as [|c s IH]; [done|]. simpl. by rewrite lower_char_idemp, IH. Qed.

Lemma lstrip_starts (s : string) : starts_with_space (lstrip s) = false.
Proof.
  induction s as [|c s IH]; [done|]. simpl.
  destruct (is_space c) eqn:Hc; [done|]. simpl. by rewrite Hc.
Qed.

Lemma rstrip_ends (s : string) : ends_with_space (rstrip s) = false.
Proof.
  induction s as [|c s IH]; [done|]. simpl.
  destruct (is_space c && String.eqb (rstrip s) "") eqn:Hc; [done|].
  destruct (rstrip s) as [|c' r] eqn:Hr.
  - simpl in *. by rewrite andb_true_r in Hc.
  - done.
Qed.

Lemma rstrip_starts (s : string) :
  starts_with_space s = false → starts_with_space (rstrip s) = false.
Proof.
  destruct s as [|c s]; [done|]. simpl. intros Hc. rewrite Hc. by simpl.
Qed.

Lemma strip_stripped (s : string) : stripped (strip s).
Proof.
  split; [apply rstrip_starts, lstrip_starts | apply rstrip_ends].
Qed.

Lemma lstrip_id (s : string) : starts_with_space s = false → lstrip s = s.
Proof. destruct s as [|c s]; [done|]. simpl. by intros ->. Qed.

Lemma rstrip_id (s : string) : ends_with_space s = false → rstrip s = s.
Proof.
  induction s as [|c s IH]; [done|]. intros He. simpl.
  destruct s as [|c' s].
  - simpl in *. by rewrite He.
  - rewrite IH by done. by rewrite andb_false_r.
Qed.

(** X1. [supports_url] looks for the domain in the lowered URL, so the
    answer does not depend on letter case: it is [True] exactly when the
    lowered URL contains [librarything.com], and a URL and its lowered form
    get the same answer. *)
Theorem supports_url_ignores_case (url : string) :
  (supports_url url = true ↔
   ∃ pre post, lower url = pre +:+ "librarything.com" +:+ post)
  ∧ supports_url (lower url) = supports_url url.
Proof.
  unfold supports_url. split; [apply contains_spec|]. by rewrite lower_idemp.
Qed.

Lemma supports_url_ignores_case_witness :
  supports_url "HTTP://WWW.LibraryThing.COM/work/12345" = true
  ∧ supports_url "https://www.ravelry.com/patterns/library/test" = false.
Proof.
  split.
  - apply (proj2 (proj1 (supports_url_ignores_case _))).
    by exists "http://www.", "/work/12345".
  - by vm_compute.
Defined.

(** ** More on the XML normaliser *)

Section NormaliserMore.
Context `{PyLib}.

Lemma tag_names_stripped (tag_elems : list Element) :
  Forall (fun t => t ≠ "" ∧ stripped t) (tag_names tag_elems).
Proof.
  induction tag_elems as [|e es IH]; [constructor|]. simpl.
  destruct (String.eqb (strip (findtext e "name" "")) "") eqn:He; simpl; [done|].
  constructor; [|done]. split; [by apply String.eqb_neq | apply strip_stripped].
Qed.

Lemma tag_names_length (tag_elems : list Element) :
  (length (tag_names tag_elems) ≤ length tag_elems)%nat.
Proof.
  induction tag_elems as [|e es IH]; [done|]. simpl.
  destruct (negb _); simpl; lia.
Qed.

Lemma first_description_stripped (descriptions : list Element) :
  first_description descriptions = VNone
  ∨ ∃ d, first_description descriptions = VStr d ∧ d ≠ "" ∧ stripped d.
Proof.
  induction descriptions as [|e es IH]; [by left|]. simpl.
  destruct (text e) as [t|]; [|done].
  destruct (String.eqb t ""); simpl; [done|].
  destruct (String.eqb (strip t) "") eqn:Hs; simpl; [done|].
  right. exists (strip t). split; [done|].
  split; [by apply String.eqb_neq | apply strip_stripped].
Qed.

Lemma first_cover_shape (covers : list Element) :
  first_cover covers = VNone
  ∨ ∃ cover_id, first_cover covers
                = VStr ("https://covers.librarything.com/pics/" +:+ cover_id +:+ "l")
                ∧ cover_id ≠ "" ∧ stripped cover_id.
Proof.
  induction covers as [|e es IH]; [by left|]. simpl.
  destruct (String.eqb (strip (findtext e "id" "")) "") eqn:Hs; simpl; [done|].
  right. eexists. split; [done|].
  split; [by apply String.eqb_neq | apply strip_stripped].
Qed.

Lemma parse_fields (xml_text work_id : string) (work_data : gmap string Val) :
  _parse_xml_response xml_text work_id = Some work_data →
  dom work_data = work_data_keys
  ∧ work_data !! "work_id" = Some (VStr work_id)
  ∧ work_data !! "url"
    = Some (VStr ("https://www.librarything.com/work/" +:+ work_id))
  ∧ ∃ title, work_data !! "title" = Some (VStr title) ∧ title ≠ "" ∧ stripped title.
Proof.
  unfold _parse_xml_response. intros Hp.
  destruct (fromstring xml_text) as [root|]; [|done].
  destruct (find root "error"); [done|].
  destruct (find root "work") as [work|]; [|done].
  destruct (String.eqb (strip (findtext work "title" "")) "") eqn:Ht; [done|].
  injection Hp as <-. split; [|split; [|split]].
  - rewrite !dom_insert_L, dom_empty_L. unfold work_data_keys. set_solver.
  - by simplify_map_eq.
  - by simplify_map_eq.
  - exists (strip (findtext work "title" "")). split; [by simplify_map_eq|].
    split; [by apply String.eqb_neq | apply strip_stripped].
Qed.

(** X2. Whatever [_parse_xml_response] returns other than [None] has
    exactly the nine keys of its dict literal; its [work_id] is the id that
    was asked for, its [url] the work URL built from that id, and its
    [title] a non-empty string without whitespace at either end. *)
Theorem parse_result_shape (xml_text work_id : string) (work_data : gmap string Val) :
  _parse_xml_response xml_text work_id = Some work_data →
  dom work_data = work_data_keys
  ∧ work_data !! "work_id" = Some (VStr work_id)
  ∧ work_data !! "url"
    = Some (VStr ("https://www.librarything.com/work/" +:+ work_id))
  ∧ ∃ title, work_data !! "title" = Some (VStr title) ∧ title ≠ "" ∧ stripped title.
Proof. apply parse_fields. Qed.

(** X3. The optional fields of a parsed work: [tags] is a list of
    non-empty stripped names, no longer than the list of [tag] elements;
    [description] is [None] or a non-empty stripped string; [image_url] is
    [None] or the cover URL of a non-empty cover id; [language] and
    [publication_year] are stripped strings, empty when the element is
    missing. *)
Theorem parse_optional_fields (xml_text work_id : string) (work_data : gmap string Val) :
  _parse_xml_response xml_text work_id = Some work_data →
  (∃ tags, work_data !! "tags" = Some (VList tags)
           ∧ Forall (fun t => t ≠ "" ∧ stripped t) tags)
  ∧ (work_data !! "description" = Some VNone
     ∨ ∃ d, work_data !! "description" = Some (VStr d) ∧ d ≠ "" ∧ stripped d)
  ∧ (work_data !! "image_url" = Some VNone
     ∨ ∃ cover_id,
         work_data !! "image_url"
         = Some (VStr ("https://covers.librarything.com/pics/" +:+ cover_id +:+ "l"))
         ∧ cover_id ≠ "")
  ∧ (∃ language, work_data !! "language" = Some (VStr language) ∧ stripped language)
  ∧ (∃ year, work_data !! "publication_year" = Some (VStr year) ∧ stripped year).
Proof.
  unfold _parse_xml_response. intros Hp.
  destruct (fromstring xml_text) as [root|]; [|done].
  destruct (find root "error"); [done|].
  destruct (find root "work") as [work|]; [|done].
  destruct (String.eqb (strip (findtext work "title" "")) ""); [done|].
  injection Hp as <-. split; [|split; [|split; [|split]]].
  - eexists. split; [by simplify_map_eq|].
    destruct (find work "populartags"); [apply tag_names_stripped | constructor].
  - destruct (first_description_stripped (findall work "description"))
      as [Hd | (d & Hd & Hne & Hs)].
    + left. simplify_map_eq. by rewrite Hd.
    + right. exists d. simplify_map_eq. by rewrite Hd.
  - destruct (first_cover_shape (findall work "cover"))
      as [Hc | (c & Hc & Hne & _)].
    + left. simplify_map_eq. by rewrite Hc.
    + right. exists c. simplify_map_eq. by rewrite Hc.
  - eexists. split; [by simplify_map_eq | apply strip_stripped].
  - eexists. split; [by simplify_map_eq | apply strip_stripped].
Qed.

(** X4. The author of a parsed work: [None] when the work has no [author]
    element; otherwise a string, never [None]: the stripped [name], or the
    stripped [authorname] when the name is missing or blank, so an author
    element with neither gives the empty string. *)
Theorem parse_author (xml_text work_id : string) (root work : Element)
    (work_data : gmap string Val) :
  fromstring xml_text = Some root →
  find root "work" = Some work →
  _parse_xml_response xml_text work_id = Some work_data →
  match find work "author" with
  | None => work_data !! "author" = Some VNone
  | Some author_elem =>
      let name := strip (findtext author_elem "name" "") in
      let authorname := strip (findtext author_elem "authorname" "") in
      work_data !! "author"
      = Some (VStr (if String.eqb name "" then authorname else name))
  end.
Proof.
  intros Hx Hw. unfold _parse_xml_response. rewrite Hx, Hw.
  destruct (find root "error"); [done|].
  destruct (String.eqb (strip (findtext work "title" "")) ""); [done|].
  intros [= <-]. destruct (find work "author") as [author_elem|].
  - simplify_map_eq. unfold py_or. simpl.
    by destruct (String.eqb (strip (findtext author_elem "name" "")) "").
  - by simplify_map_eq.
Qed.
End NormaliserMore.

Lemma garden_parsed :
  @_parse_xml_response sample_pylib garden_xml "35356138" = Some garden_work_data.
Proof. vm_compute. reflexivity. Qed.

Lemma parse_result_shape_witness :
  @_parse_xml_response sample_pylib garden_xml "35356138" = Some garden_work_data
  ∧ dom garden_work_data = work_data_keys
  ∧ ∃ title, garden_work_data !! "title" = Some (VStr title) ∧ title ≠ "".
Proof.
  split; [exact garden_parsed|].
  destruct (@parse_result_shape sample_pylib _ _ _ garden_parsed)
    as (Hdom & _ & _ & title & Ht & Hne & _).
  split; [exact Hdom|]. exists title. by split.
Defined.

Lemma parse_optional_fields_witness :
  ∃ tags language,
    garden_work_data !! "tags" = Some (VList tags)
    ∧ Forall (fun t => t ≠ "" ∧ stripped t) tags
    ∧ garden_work_data !! "language" = Some (VStr language) ∧ stripped language.
Proof.
  destruct (@parse_optional_fields sample_pylib _ _ _ garden_parsed)
    as ((tags & Htags & Hall) & _ & _ & (language & Hl & Hs) & _).
  by exists tags, language.
Defined.

Lemma parse_author_witness :
  garden_work_data !! "author" = Some (VStr "Peter Brown").
Proof.
  exact (@parse_author sample_pylib garden_xml "35356138" garden_tree
           (Elem "work" None
              [Elem "id" (Some "35356138") [];
               Elem "title" (Some "The Curious Garden") [];
               Elem "author" None [Elem "name" (Some "Peter Brown") []]])
           garden_work_data eq_refl eq_refl garden_parsed).
Defined.

(** ** Fetching one work *)

Lemma append_assoc_s (a b c : string) : (a +:+ b) +:+ c = a +:+ (b +:+ c).
Proof. induction a as [|x a IH]; [done|]. by rewrite !append_cons, IH. Qed.

Lemma prefix_append (pre s t : string) :
  String.prefix pre s = true → String.prefix pre (s +:+ t) = true.
Proof.
  rewrite !prefix_app. intros [r ->]. exists (r +:+ t). apply append_assoc_s.
Qed.

Section Fetch.
Context `{PyLib} {World : Type} `{BaseScraper World}.
Variable api_key : Val.

(** The request [_fetch_work_details] sends. *)
#[local] Abbreviation request work_id :=
  (client_get (API_BASE_URL +:+ "/")
     [("method", VStr "librarything.ck.getwork"); ("id", VStr work_id);
      ("apikey", api_key)]).

Lemma fetch_some (work_id : string) (work_data : gmap string Val) (w w' : World) :
  _fetch_work_details api_key work_id w = (Ok (Some work_data), w') →
  truthy api_key = true
  ∧ ∃ xml_text, _parse_xml_response xml_text work_id = Some work_data.
Proof.
  unfold _fetch_work_details. destruct (truthy api_key); [|done]. cbn [negb].
  unfold_m. destruct (_throttle_request w) as [[[]|e] w1]; [|done].
  destruct (client_get _ _ w1) as [[response|e] w2].
  - destruct (negb (status_code response =? 200)%Z); [done|].
    intros [= Hp _]. split; [done|]. by eexists.
  - by destruct (exc_class e).
Qed.

(** X5. The ways [_fetch_work_details] gives up, each with [None] and
    without raising: no API key (nothing is sent, not even the throttle is
    consulted); a throttle that raises (nothing is sent); a client that
    raises, whatever the exception; an answer whose status is not 200. *)
Theorem fetch_gives_up_with_none (work_id : string) (w : World) :
  (truthy api_key = false →
   _fetch_work_details api_key work_id w = (Ok None, w))
  ∧ (truthy api_key = true →
     (∀ e w1, _throttle_request w = (Raise e, w1) →
        _fetch_work_details api_key work_id w = (Ok None, w1))
     ∧ (∀ e w1 w2, _throttle_request w = (Ok tt, w1) →
          request work_id w1 = (Raise e, w2) →
          _fetch_work_details api_key work_id w = (Ok None, w2))
     ∧ (∀ response w1 w2, _throttle_request w = (Ok tt, w1) →
          request work_id w1 = (Ok response, w2) →
          status_code response ≠ 200%Z →
          _fetch_work_details api_key work_id w = (Ok None, w2))).
Proof.
  split.
  - intros Hk. unfold _fetch_work_details. by rewrite Hk.
  - intros Hk. unfold _fetch_work_details. rewrite Hk. cbn [negb].
    split; [|split].
    + intros e w1 Ht. unfold_m. by rewrite Ht.
    + intros e w1 w2 Ht Hg. unfold_m. rewrite Ht, Hg. by destruct (exc_class e).
    + intros response w1 w2 Ht Hg Hs. unfold_m. rewrite Ht, Hg.
      apply Z.eqb_neq in Hs. by rewrite Hs.
Qed.

(** X6. What [_fetch_work_details] returns other than [None] is a parsed
    work for the id that was asked: its [work_id] is that id, its [url] the
    work URL of that id, and its [title] is a non-empty string. *)
Theorem fetch_result_is_the_work (work_id : string) (work_data : gmap string Val)
    (w w' : World) :
  _fetch_work_details api_key work_id w = (Ok (Some work_data), w') →
  truthy_dict work_data = true
  ∧ work_data !! "work_id" = Some (VStr work_id)
  ∧ work_data !! "url"
    = Some (VStr ("https://www.librarything.com/work/" +:+ work_id))
  ∧ ∃ title, work_data !! "title" = Some (VStr title) ∧ title ≠ "".
Proof.
  intros Hf. apply fetch_some in Hf as (_ & xml_text & Hp).
  destruct (parse_some _ _ _ Hp) as [Ht _].
  destruct (parse_fields _ _ _ Hp) as (_ & Hid & Hurl & title & Htitle & Hne & _).
  repeat split; try done. by exists title.
Qed.
End Fetch.

Lemma fetch_gives_up_with_none_witness :
  @_fetch_work_details sample_pylib nat (scripted healthy) VNone "35356138" 0%nat
  = (Ok None, 0%nat)
  ∧ @_fetch_work_details sample_pylib nat (scripted throttle_raises) (VStr "k")
      "35356138" 0%nat = (Ok None, 0%nat)
  ∧ @_fetch_work_details sample_pylib nat (scripted client_raises) (VStr "k")
      "35356138" 0%nat = (Ok None, 0%nat)
  ∧ @_fetch_work_details sample_pylib nat (scripted healthy) (VStr "k")
      "999" 0%nat = (Ok None, 0%nat).
Proof.
  split; [|split; [|split]].
  - exact (proj1 (@fetch_gives_up_with_none sample_pylib nat (scripted healthy)
                    VNone "35356138" 0%nat) eq_refl).
  - destruct (proj2 (@fetch_gives_up_with_none sample_pylib nat
                       (scripted throttle_raises) (VStr "k") "35356138" 0%nat)
                eq_refl) as (Hthrottle & _).
    exact (Hthrottle boom 0%nat eq_refl).
  - destruct (proj2 (@fetch_gives_up_with_none sample_pylib nat
                       (scripted client_raises) (VStr "k") "35356138" 0%nat)
                eq_refl) as (_ & Hclient & _).
    exact (Hclient boom 0%nat 0%nat eq_refl eq_refl).
  - destruct (proj2 (@fetch_gives_up_with_none sample_pylib nat
                       (scripted healthy) (VStr "k") "999" 0%nat)
                eq_refl) as (_ & _ & Hstatus).
    exact (Hstatus (mkResponse 403 "blocked") 0%nat 0%nat eq_refl eq_refl
             ltac:(done)).
Defined.

Lemma garden_fetched :
  @_fetch_work_details sample_pylib nat (scripted healthy) (VStr "k")
    "35356138" 0%nat = (Ok (Some garden_work_data), 0%nat).
Proof. vm_compute. reflexivity. Qed.

Lemma fetch_result_is_the_work_witness :
  @_fetch_work_details sample_pylib nat (scripted healthy) (VStr "k")
    "35356138" 0%nat = (Ok (Some garden_work_data), 0%nat)
  ∧ garden_work_data !! "work_id" = Some (VStr "35356138")
  ∧ truthy_dict garden_work_data = true.
Proof.
  split; [exact garden_fetched|].
  destruct (@fetch_result_is_the_work sample_pylib nat (scripted healthy)
              (VStr "k") _ _ _ _ garden_fetched) as (Ht & Hid & _).
  by split.
Defined.

(** ** More on the product builder *)

Section BuilderMore.
Context `{PyLib} {World : Type} `{BaseScraper World}.

(** One "add metadata" step keeps a string description's beginning, and
    does nothing when its field is missing or falsy. *)
Lemma describe_step_prefix (work_data : gmap string Val) (key : string)
    (e : Exception) (added fresh : Val → string) (d : Val) (w : World) :
  ∃ d',
    (if truthy (dict_get work_data key VNone) then
       match work_data !! key with
       | None => raise e
       | Some v =>
           if truthy d then of_result (iadd_str d (added v))
           else mret (VStr (fresh v))
       end
     else mret d : M World Val) w = (Ok d', w)
    ∧ (truthy (dict_get work_data key VNone) = false → d' = d)
    ∧ (∀ s pre, d = VStr s → truthy d = true → String.prefix pre s = true →
         ∃ s', d' = VStr s' ∧ String.prefix pre s' = true).
Proof.
  unfold dict_get. destruct (work_data !! key) as [v|]; simpl.
  - destruct (truthy v).
    + destruct (truthy d) eqn:Hd.
      * destruct d as [|s|l]; [done| |].
        -- eexists. split; [done|]. split; [done|].
           intros s0 pre [= <-] _ Hp. eexists. split; [done|].
           by apply prefix_append.
        -- eexists. split; [done|]. split; [done|]. by intros s0 pre [=].
      * eexists. split; [done|]. split; [done|]. intros s pre -> Ht. congruence.
    + exists d. split; [done|]. split; [done|]. intros s pre -> _ Hp. by exists s.
  - exists d. split; [done|]. split; [done|]. intros s pre -> _ Hp. by exists s.
Qed.

Lemma append_empty_r (a : string) : a +:+ "" = a.
Proof. induction a as [|x a IH]; [done|]. by rewrite append_cons, IH. Qed.

(** X7. How [_create_product_dict] composes the description: with a truthy
    author it is a string that begins with ["By "] and the author, whatever
    is appended after; with no author, no publication year and no language
    it is the work's description untouched (possibly [None]). *)
Theorem product_description (work_data : gmap string Val) (source_url : Val) (w : World) :
  ∃ p w',
    _create_product_dict work_data source_url w = (Ok p, w')
    ∧ (truthy (dict_get work_data "author" VNone) = true →
       ∃ d, p !! "description" = Some (VStr d)
            ∧ String.prefix ("By " +:+ format_val (dict_get work_data "author" VNone)) d
              = true)
    ∧ (truthy (dict_get work_data "author" VNone) = false →
       truthy (dict_get work_data "publication_year" VNone) = false →
       truthy (dict_get work_data "language" VNone) = false →
       p !! "description" = Some (dict_get work_data "description" VNone)).
Proof.
  unfold _create_product_dict.
  set (author := dict_get work_data "author" VNone).
  set (d0 := if truthy author && _ then _ else _).
  unfold mbind at 1. unfold M_bind at 1.
  destruct (describe_step_prefix work_data "publication_year"
              (mkException KeyError "'publication_year'")
              (fun v => nl +:+ nl +:+ "Published: " +:+ format_val v)
              (fun v => "Published: " +:+ format_val v) d0 w)
    as (d1 & Hd1 & Hsame1 & Hpre1).
  rewrite Hd1.
  unfold mbind at 1. unfold M_bind at 1.
  destruct (describe_step_prefix work_data "language"
              (mkException KeyError "'language'")
              (fun v => nl +:+ "Language: " +:+ format_val v)
              (fun v => "Language: " +:+ format_val v) d1 w)
    as (d2 & Hd2 & Hsame2 & Hpre2).
  rewrite Hd2.
  unfold mbind, M_bind, utcnow, mret, M_ret.
  destruct (datetime_now w) as [now w']. simpl.
  eexists _, _. split; [done|]. split.
  - intros Ha.
    assert (∃ s0, d0 = VStr s0 ∧ truthy d0 = true
                  ∧ String.prefix ("By " +:+ format_val author) s0 = true)
      as (s0 & Hs0 & Ht0 & Hp0).
    { unfold d0. rewrite Ha. simpl.
      destruct (truthy (dict_get work_data "description" VNone)).
      - eexists. split; [done|]. split; [done|]. apply prefix_app.
        eexists. symmetry. apply append_assoc_s.
      - eexists. split; [done|]. split; [done|]. apply prefix_app.
        exists "". by rewrite append_empty_r. }
    destruct (Hpre1 _ _ Hs0 Ht0 Hp0) as (s1 & Hs1 & Hp1).
    assert (truthy d1 = true) as Ht1.
    { rewrite Hs1. simpl. destruct s1; [|done].
      apply prefix_app in Hp1 as [r Hr]. by rewrite append_cons in Hr. }
    destruct (Hpre2 _ _ Hs1 Ht1 Hp1) as (s2 & Hs2 & Hp2).
    exists s2. split; [|done]. subst d2. by simplify_map_eq.
  - intros Ha Hy Hl. simplify_map_eq. f_equal.
    rewrite (Hsame2 Hl), (Hsame1 Hy). unfold d0. rewrite Ha. done.
Qed.

(** X8. The record [_create_product_dict] builds always has exactly the ten
    canonical keys.  Its [name] is ['Untitled'] when the work data has no
    [title] key, but a title that is present and [None] is passed on, so
    the name can be [None]; its [url] is the source URL when that is truthy
    and the work's own [url] otherwise. *)
Theorem product_record_keys (work_data : gmap string Val) (source_url : Val) (w : World) :
  ∃ p w',
    _create_product_dict work_data source_url w = (Ok p, w')
    ∧ dom p = product_keys
    ∧ (work_data !! "title" = None → p !! "name" = Some (VStr "Untitled"))
    ∧ (work_data !! "title" = Some VNone → p !! "name" = Some VNone)
    ∧ (truthy source_url = true → p !! "url" = Some source_url)
    ∧ (truthy source_url = false → p !! "url" = Some (dict_get work_data "url" VNone)).
Proof.
  unfold _create_product_dict.
  set (d0 := if truthy (dict_get work_data "author" VNone) && _ then _ else _).
  unfold mbind at 1. unfold M_bind at 1.
  destruct (describe_step work_data "publication_year"
              (mkException KeyError "'publication_year'")
              (fun v => nl +:+ nl +:+ "Published: " +:+ format_val v)
              (fun v => "Published: " +:+ format_val v) d0 w) as [d1 Hd1].
  rewrite Hd1.
  unfold mbind at 1. unfold M_bind at 1.
  destruct (describe_step work_data "language"
              (mkException KeyError "'language'")
              (fun v => nl +:+ "Language: " +:+ format_val v)
              (fun v => "Language: " +:+ format_val v) d1 w) as [d2 Hd2].
  rewrite Hd2.
  unfold mbind, M_bind, utcnow, mret, M_ret.
  destruct (datetime_now w) as [now w']. simpl.
  eexists _, _. split; [done|]. split; [|split; [|split; [|split]]].
  - rewrite !dom_insert_L, dom_empty_L. unfold product_keys. set_solver.
  - intros Ht. simplify_map_eq. unfold dict_get. by rewrite Ht.
  - intros Ht. simplify_map_eq. unfold dict_get. by rewrite Ht.
  - intros Hs. simplify_map_eq. unfold py_or. by rewrite Hs.
  - intros Hs. simplify_map_eq. unfold py_or. by rewrite Hs.
Qed.
End BuilderMore.

Lemma product_description_witness :
  ∃ p w' d,
    @_create_product_dict sample_pylib nat (scripted healthy)
      garden_work_data VNone 0%nat = (Ok p, w')
    ∧ p !! "description" = Some (VStr d)
    ∧ String.prefix "By Peter Brown" d = true.
Proof.
  destruct (@product_description sample_pylib nat (scripted healthy)
              garden_work_data VNone 0%nat) as (p & w' & Hc & Hby & _).
  destruct (Hby ltac:(vm_compute; reflexivity)) as (d & Hd & Hp).
  exists p, w', d. split; [done|]. split; [done|].
  assert ("By " +:+ @format_val sample_pylib (dict_get garden_work_data "author" VNone)
          = "By Peter Brown") as Heq by (vm_compute; reflexivity).
  by rewrite Heq in Hp.
Defined.

Lemma product_record_keys_witness :
  ∃ p w',
    @_create_product_dict sample_pylib nat (scripted healthy)
      (<["title" := VNone]> ∅) (VStr "https://www.librarything.com/work/7") 0%nat
    = (Ok p, w')
    ∧ dom p = product_keys
    ∧ p !! "name" = Some VNone
    ∧ p !! "url" = Some (VStr "https://www.librarything.com/work/7").
Proof.
  destruct (@product_record_keys sample_pylib nat (scripted healthy)
              (<["title" := VNone]> ∅) (VStr "https://www.librarything.com/work/7")
              0%nat)
    as (p & w' & Hc & Hdom & _ & Hnone & Hurl & _).
  exists p, w'. split; [done|]. split; [done|].
  split; [apply Hnone; vm_compute; reflexivity | by apply Hurl].
Defined.

(** ** Scraping one URL *)

Section ScrapeUrl.
Context `{PyLib} {World : Type} `{BaseScraper World}.
Variable api_key : Val.

Lemma extract_work_id_nonempty (url work_id : string) :
  _extract_work_id url = Some work_id → url ≠ "" ∧ work_id ≠ "".
Proof.
  intros He. split; [by intros ->|].
  apply search_work_spec in He as (pre & rest & (_ & Hne & _) & _). done.
Qed.

Lemma fetch_no_key (work_id : string) (w : World) :
  truthy api_key = false →
  _fetch_work_details api_key work_id w = (Ok None, w).
Proof. intros Hk. unfold _fetch_work_details. by rewrite Hk. Qed.

Lemma product_fields (work_data : gmap string Val) (source_url : Val) (w : World) :
  ∃ p,
    _create_product_dict work_data source_url w = (Ok p, (datetime_now w).2)
    ∧ p !! "name" = Some (dict_get work_data "title" (VStr "Untitled"))
    ∧ p !! "source" = Some (VStr "GOAT")
    ∧ p !! "url" = Some (py_or source_url (dict_get work_data "url" VNone))
    ∧ p !! "external_id" = Some (dict_get work_data "work_id" VNone).
Proof.
  unfold _create_product_dict.
  set (d0 := if truthy (dict_get work_data "author" VNone) && _ then _ else _).
  unfold mbind at 1. unfold M_bind at 1.
  destruct (describe_step work_data "publication_year"
              (mkException KeyError "'publication_year'")
              (fun v => nl +:+ nl +:+ "Published: " +:+ format_val v)
              (fun v => "Published: " +:+ format_val v) d0 w) as [d1 Hd1].
  rewrite Hd1.
  unfold mbind at 1. unfold M_bind at 1.
  destruct (describe_step work_data "language"
              (mkException KeyError "'language'")
              (fun v => nl +:+ "Language: " +:+ format_val v)
              (fun v => "Language: " +:+ format_val v) d1 w) as [d2 Hd2].
  rewrite Hd2.
  unfold mbind, M_bind, utcnow, mret, M_ret.
  destruct (datetime_now w) as [now w']. simpl.
  eexists. split; [done|]. by simplify_map_eq.
Qed.

(** X9. [scrape_url] never raises.  On a URL without a [/work/<digits>]
    segment, and whenever the API key is missing, it returns [None] without
    touching anything.  A record it returns is for the work named in the
    URL: its [url] is the URL given, its [external_id] the extracted work
    id, its [source] [GOAT] and its [name] a non-empty string. *)
Theorem scrape_url_result (url : string) (w : World) :
  ∃ r w',
    scrape_url api_key url w = (Ok r, w')
    ∧ (_extract_work_id url = None → r = None ∧ w' = w)
    ∧ (truthy api_key = false → r = None ∧ w' = w)
    ∧ (∀ p, r = Some p →
         ∃ work_id name,
           _extract_work_id url = Some work_id
           ∧ p !! "url" = Some (VStr url)
           ∧ p !! "external_id" = Some (VStr work_id)
           ∧ p !! "source" = Some (VStr "GOAT")
           ∧ p !! "name" = Some (VStr name) ∧ name ≠ "").
Proof.
  unfold scrape_url, try_except.
  destruct (_extract_work_id url) as [work_id|] eqn:He.
  2: { exists None, w. by repeat split. }
  destruct (extract_work_id_nonempty _ _ He) as [Hurl Hid].
  apply String.eqb_neq in Hid. rewrite Hid.
  unfold mbind at 1. unfold M_bind at 1.
  destruct (_fetch_work_details api_key work_id w) as [[[work_data|]|e] w1] eqn:Hf.
  - destruct (fetch_some api_key _ _ _ _ Hf) as (Hk & xml_text & Hp).
    destruct (parse_some _ _ _ Hp) as [Ht _].
    destruct (parse_fields _ _ _ Hp) as (_ & Hwid & _ & title & Htitle & Hne & _).
    rewrite Ht. cbn [negb]. unfold mbind, M_bind.
    destruct (product_fields work_data (VStr url) w1)
      as (p & Hc & Hname & Hsrc & Hpurl & Hext).
    rewrite Hc. unfold mret, M_ret.
    exists (Some p), (datetime_now w1).2. split; [done|].
    split; [done|]. split; [congruence|].
    intros p' [= <-]. exists work_id, title. split; [done|].
    unfold dict_get in *. rewrite Htitle in Hname. rewrite Hwid in Hext.
    rewrite py_or_truthy in Hpurl
      by (simpl; apply String.eqb_neq in Hurl; by rewrite Hurl).
    by repeat split.
  - destruct (truthy api_key) eqn:Hk.
    + exists None, w1. by repeat split.
    + rewrite (fetch_no_key work_id w Hk) in Hf. injection Hf as <-.
      exists None, w. by repeat split.
  - destruct (fetch_work_details_ok api_key work_id w) as (r & w2 & Hok). congruence.
Qed.
End ScrapeUrl.

Lemma scrape_url_result_witness :
  @scrape_url sample_pylib nat (scripted healthy) (VStr "k")
    "https://www.librarything.com/user/someuser" 0%nat = (Ok None, 0%nat)
  ∧ ∃ p w',
      @scrape_url sample_pylib nat (scripted healthy) (VStr "k")
        "https://www.librarything.com/work/35356138/book/302275636" 0%nat
      = (Ok (Some p), w')
      ∧ p !! "url"
        = Some (VStr "https://www.librarything.com/work/35356138/book/302275636")
      ∧ p !! "external_id" = Some (VStr "35356138").
Proof.
  split.
  - destruct (@scrape_url_result sample_pylib nat (scripted healthy) (VStr "k")
                "https://www.librarything.com/user/someuser" 0%nat)
      as (r & w' & Hr & Hnone & _).
    destruct (Hnone ltac:(vm_compute; reflexivity)) as [-> ->]. exact Hr.
  - destruct (@scrape_url_result sample_pylib nat (scripted healthy) (VStr "k")
                "https://www.librarything.com/work/35356138/book/302275636" 0%nat)
      as (r & w' & Hr & _ & _ & Hsome).
    assert (match @scrape_url sample_pylib nat (scripted healthy) (VStr "k")
                    "https://www.librarything.com/work/35356138/book/302275636" 0%nat
            with (Ok (Some _), _) => true | _ => false end = true) as Hs
      by (vm_compute; reflexivity).
    rewrite Hr in Hs. destruct r as [p|]; [|discriminate Hs].
    destruct (Hsome p eq_refl) as (work_id & name & He & Hu & Hx & _).
    exists p, w'. split; [done|]. split; [done|].
    assert (work_id = "35356138") as ->
      by (vm_compute in He; by injection He).
    done.
Defined.

(** ** What one iteration and a whole run do to the report *)

Section Counters.
Context `{PyLib} {World : Type} `{BaseScraper World}.
Variable api_key : Val.

(** The body of the [try] either leaves the report as it is, or returns
    after counting one work found and at most one write. *)
Lemma scrape_target_try_cases (target : Val) (r r' : Results) (w w' : World)
    (res : Result unit) :
  scrape_target_try api_key target (r, w) = (res, (r', w')) →
  r' = r
  ∨ res = Ok tt
    ∧ (r' = incr_products_found r
       ∨ r' = incr_products_found (incr_products_added r)
       ∨ r' = incr_products_found (incr_products_updated r)).
Proof.
  unfold scrape_target_try. unfold_m.
  destruct (resolve_target target) as [[work_id|] source_url];
    [|intros; simplify_eq; by left].
  destruct (String.eqb work_id ""); [intros; simplify_eq; by left|].
  destruct (_fetch_work_details api_key work_id w) as [[[work_data|]|e] w1];
    [|intros; simplify_eq; by left..].
  destruct (negb (truthy_dict work_data)); [intros; simplify_eq; by left|].
  destruct (_create_product_dict work_data source_url w1) as [[p|e] w2];
    [|intros; simplify_eq; by left].
  destruct (_product_exists _ w2) as [[existing|e] w3];
    [|intros; simplify_eq; by left].
  destruct existing as [row|].
  - destruct (truthy_dict row).
    + destruct (row !! "id") as [product_id|]; [|intros; simplify_eq; by left].
      destruct (_update_product product_id p w3) as [[[]|e] w4];
        intros; simplify_eq; auto 6.
    + destruct (_create_product p w3) as [[[]|e] w4]; intros; simplify_eq; auto 6.
  - destruct (_create_product p w3) as [[[]|e] w4]; intros; simplify_eq; auto 6.
Qed.

Lemma scrape_target_cases (target : Val) (r r' : Results) (w w' : World)
    (res : Result unit) :
  scrape_target api_key target (r, w) = (res, (r', w')) →
  res = Ok tt
  ∧ (r' = r
     ∨ r' = incr_products_found r
     ∨ r' = incr_products_found (incr_products_added r)
     ∨ r' = incr_products_found (incr_products_updated r)).
Proof.
  unfold scrape_target, try_except.
  destruct (scrape_target_try api_key target (r, w)) as [[[]|e] [r1 w1]] eqn:Ht;
    apply scrape_target_try_cases in Ht; unfold mret, M_ret;
    (destruct Ht as [-> | [Hres Hc]]; [|try discriminate Hres]);
    intros [= <- <- <-]; split; auto.
Qed.

(** X10. Each iteration of the target loop ends normally, and it does one
    of four things to the report: nothing; one work found; one work found
    and one added; one work found and one updated.  When the body of the
    [try] raises, the report is as it was before the iteration. *)
Theorem iteration_outcomes (target : Val) (r : Results) (w : World) :
  (∀ e r' w',
     scrape_target_try api_key target (r, w) = (Raise e, (r', w')) → r' = r)
  ∧ ∃ r' w',
      scrape_target api_key target (r, w) = (Ok tt, (r', w'))
      ∧ (r' = r
         ∨ r' = incr_products_found r
         ∨ r' = incr_products_found (incr_products_added r)
         ∨ r' = incr_products_found (incr_products_updated r)).
Proof.
  split.
  - intros e r' w' Ht. apply scrape_target_try_cases in Ht.
    destruct Ht as [?|[? _]]; [done | discriminate].
  - destruct (scrape_target api_key target (r, w)) as [res [r' w']] eqn:Hs.
    destruct (scrape_target_cases _ _ _ _ _ _ Hs) as [-> Hc].
    by exists r', w'.
Qed.

(** The loop finds at most one work per target, and it writes at most as
    many rows as it finds works. *)
Lemma scrape_targets_counts (test_limit : Z) (i : nat) (targets : list Val)
    (r r' : Results) (w w' : World) (res : Result unit) :
  scrape_targets api_key false test_limit i targets (r, w) = (res, (r', w')) →
  (products_found r' ≤ products_found r + length targets)%nat
  ∧ (products_added r' + products_updated r' + products_found r
     ≤ products_added r + products_updated r + products_found r')%nat.
Proof.
  revert i r w. induction targets as [|target rest IH]; intros i r w.
  - cbn [scrape_targets]. unfold mret, M_ret. intros [= <- <- <-]. simpl. lia.
  - cbn [scrape_targets andb]. unfold mbind, M_bind.
    destruct (scrape_target api_key target (r, w)) as [res1 [r1 w1]] eqn:Hs.
    destruct (scrape_target_cases _ _ _ _ _ _ Hs) as [-> Hc].
    intros Hrest. apply IH in Hrest. cbn [length].
    destruct Hc as [-> | [-> | [-> | ->]]]; simpl in Hrest; lia.
Qed.

Lemma scrape_targets_bounds (test_mode : bool) (test_limit : Z)
    (targets : list Val) (r r' : Results) (w w' : World) (res : Result unit) :
  scrape_targets api_key test_mode test_limit 0 targets (r, w) = (res, (r', w')) →
  (products_found r' ≤ products_found r
                         + length (attempted test_mode test_limit targets))%nat
  ∧ (products_added r' + products_updated r' + products_found r
     ≤ products_added r + products_updated r + products_found r')%nat.
Proof.
  unfold attempted. destruct test_mode.
  - rewrite scrape_targets_test_limit, Nat.sub_0_r. apply scrape_targets_counts.
  - apply scrape_targets_counts.
Qed.

(** The three ways a run ends. *)
Lemma scrape_cases (test_mode : bool) (test_limit : Z) (urls : option (list Val))
    (w : World) :
  ∃ r w',
    scrape api_key test_mode test_limit urls w = (Ok r, w')
    ∧ ((truthy api_key = false
        ∧ r = set_message no_api_key_message (set_status "warning" initial_results))
       ∨ (truthy api_key = true
          ∧ ∃ d w1, load_targets urls (datetime_now w).2 = (Ok [], w1)
            ∧ r = set_duration_seconds d
                    (set_message no_targets_message
                       (set_status "warning" initial_results)))
       ∨ (truthy api_key = true
          ∧ ∃ targets w1 r1 w2 d,
              load_targets urls (datetime_now w).2 = (Ok targets, w1)
              ∧ targets ≠ []
              ∧ scrape_targets api_key test_mode test_limit 0 targets
                  (initial_results, w1) = (Ok tt, (r1, w2))
              ∧ r = if (products_found r1 =? 0)%nat
                    then set_message no_works_message
                           (set_status "warning" (set_duration_seconds d r1))
                    else set_message ("Scraped " +:+ pretty (products_found r1)
                                      +:+ " works (API may have limited access)")
                           (set_duration_seconds d r1))).
Proof.
  rewrite scrape_unfold. destruct (truthy api_key) eqn:Hk.
  - destruct (load_targets_ok urls (datetime_now w).2) as (targets & w1 & Hl).
    destruct (decide (targets = [])) as [->|Hne].
    + rewrite (scrape_try_no_targets api_key _ _ _ _ _ _ _ Hk Hl).
      eexists _, _. split; [done|]. right. left. split; [done|]. by eexists _, _.
    + destruct (scrape_targets_ok api_key test_mode test_limit 0 targets
                  (initial_results, w1)) as [[r1 w2] Hloop].
      rewrite (scrape_try_targets api_key _ _ _ _ _ _ _ _ _ _ Hk Hl Hne Hloop).
      eexists _, _. split; [done|]. right. right. split; [done|].
      eexists targets, w1, r1, w2, _. repeat split; try done.
  - rewrite scrape_try_no_key by done.
    eexists _, _. split; [done|]. by left.
Qed.

(** X11. Every run returns a report whose source is [GOAT], that counts no
    more writes than works found, whose status is [success] exactly when
    at least one work was found and [warning] otherwise, that carries a
    message and no error message.  Without an API key the duration is never
    computed: it stays 0. *)
Theorem scrape_report_invariants (test_mode : bool) (test_limit : Z)
    (urls : option (list Val)) (w : World) :
  ∃ r w',
    scrape api_key test_mode test_limit urls w = (Ok r, w')
    ∧ source r = "GOAT"
    ∧ (products_added r + products_updated r ≤ products_found r)%nat
    ∧ (status r = "success" ↔ (1 ≤ products_found r)%nat)
    ∧ (status r = "warning" ↔ products_found r = 0%nat)
    ∧ is_Some (message r)
    ∧ error_message r = None
    ∧ (truthy api_key = false → duration_seconds r = 0%Z).
Proof.
  destruct (scrape_cases test_mode test_limit urls w)
    as (r & w' & Hr & [[Hk ->]|[(Hk & d & w1 & _ & ->)
                               |(Hk & targets & w1 & r1 & w2 & d & _ & _ & Hloop & ->)]]);
    eexists _, _; (split; [exact Hr|]).
  - simpl. repeat split; first [done | lia | by eexists].
  - simpl. repeat split; first [done | lia | by eexists | congruence].
  - destruct (scrape_targets_preserves api_key _ _ _ _ _ _ _ _ _ Hloop)
      as (Hsrc & Hst & _ & Herr & _).
    destruct (scrape_targets_bounds _ _ _ _ _ _ _ _ Hloop) as [_ Hw].
    simpl in Hsrc, Hst, Herr, Hw.
    destruct (products_found r1 =? 0)%nat eqn:Hf; simpl.
    + apply Nat.eqb_eq in Hf.
      repeat split; first [done | lia | by eexists | congruence].
    + apply Nat.eqb_neq in Hf.
      repeat split; first [done | lia | by eexists | congruence].
Qed.

(** X12. A run finds at most as many works as it attempts targets: all of
    them, or the first [test_limit] in test mode.  In test mode with a
    limit of zero or less nothing is attempted, and the run reports that
    no works could be fetched. *)
Theorem found_at_most_attempted (test_mode : bool) (test_limit : Z)
    (urls : option (list Val)) (targets : list Val) (w w1 : World) :
  load_targets urls (datetime_now w).2 = (Ok targets, w1) →
  ∃ r w',
    scrape api_key test_mode test_limit urls w = (Ok r, w')
    ∧ (products_found r ≤ length (attempted test_mode test_limit targets))%nat
    ∧ (test_mode = true → (products_found r ≤ Z.to_nat test_limit)%nat)
    ∧ (test_mode = true → (test_limit ≤ 0)%Z → targets ≠ [] →
       truthy api_key = true →
       status r = "warning" ∧ message r = Some no_works_message).
Proof.
  intros Hl.
  assert (length (attempted test_mode test_limit targets) ≤ length targets)%nat
    as Hatt.
  { unfold attempted. destruct test_mode; [rewrite length_take|]; lia. }
  assert (test_mode = true →
          length (attempted test_mode test_limit targets) ≤ Z.to_nat test_limit)%nat
    as Hlim.
  { intros ->. unfold attempted. rewrite length_take. lia. }
  destruct (scrape_cases test_mode test_limit urls w)
    as (r & w' & Hr & [[Hk ->]|[(Hk & d & w2 & Hl' & ->)
                               |(Hk & targets' & w2 & r1 & w3 & d & Hl' & Hne & Hloop & ->)]]);
    eexists _, _; (split; [exact Hr|]).
  - simpl. split; [lia|]. split; [lia|]. intros _ _ _ Hk'. congruence.
  - simpl. split; [lia|]. split; [lia|]. intros _ _ Hne _.
    rewrite Hl in Hl'. by injection Hl' as -> _.
  - rewrite Hl in Hl'. injection Hl' as <- <-.
    destruct (scrape_targets_bounds _ _ _ _ _ _ _ _ Hloop) as [Hb _].
    simpl in Hb.
    assert (products_found
              (if (products_found r1 =? 0)%nat
               then set_message no_works_message
                      (set_status "warning" (set_duration_seconds d r1))
               else set_message ("Scraped " +:+ pretty (products_found r1)
                                 +:+ " works (API may have limited access)")
                      (set_duration_seconds d r1)) = products_found r1) as Hpf
      by by destruct (products_found r1 =? 0)%nat.
    rewrite Hpf. split; [done|]. split; [intros Ht; specialize (Hlim Ht); lia|].
    intros Ht Hle _ _. specialize (Hlim Ht).
    assert (products_found r1 = 0)%nat as -> by lia. by simpl.
Qed.

(** The targets read from the stored rows, row by row. *)
Lemma stored_targets (data : list (gmap string Val)) :
  map (fun item => dict_get item "search_term" VNone)
      (List.filter (fun item => truthy (dict_get item "search_term" VNone)) data)
  = omap (fun item =>
            match item !! "search_term" with
            | Some t => if truthy t then Some t else None
            | None => None
            end) data.
Proof.
  induction data as [|item data IH]; [done|].
  cbn [List.filter omap list_omap]. rewrite <- IH. clear IH.
  assert (dict_get item "search_term" VNone
          = default VNone (item !! "search_term")) as Hg by done.
  destruct (item !! "search_term") as [t|]; simpl in Hg; rewrite Hg.
  - destruct (truthy t); [|done]. cbn [map]. by rewrite Hg.
  - done.
Qed.

Lemma stored_targets_sublist (data : list (gmap string Val)) :
  map (fun item => dict_get item "search_term" VNone)
      (List.filter (fun item => truthy (dict_get item "search_term" VNone)) data)
  `sublist_of` map (fun item => dict_get item "search_term" VNone) data.
Proof.
  induction data as [|item data IH]; [done|].
  cbn [List.filter map].
  destruct (truthy (dict_get item "search_term" VNone)).
  - cbn [map]. by apply sublist_skip.
  - by apply sublist_cons.
Qed.

(** X13. Where the targets come from.  A non-empty [urls] argument is taken
    as it is, unfiltered, and the store is not asked.  An empty list counts
    as no argument.  Without an argument the targets are the stored rows
    read one by one, in their order: a row gives its [search_term] when
    that is truthy and nothing otherwise, so the targets are a sublist of
    the [search_term] column, with repetitions kept.  A store that raises
    gives no targets and no exception. *)
Theorem load_targets_sources (w : World) :
  (∀ u us, load_targets (Some (u :: us)) w = (Ok (u :: us), w))
  ∧ load_targets (Some []) w = load_targets None w
  ∧ (∀ e w1, select_search_terms w = (Raise e, w1) →
             load_targets None w = (Ok [], w1))
  ∧ (∀ data w1, select_search_terms w = (Ok data, w1) →
       ∃ targets,
         load_targets None w = (Ok targets, w1)
         ∧ targets
           = omap (fun item =>
                     match item !! "search_term" with
                     | Some t => if truthy t then Some t else None
                     | None => None
                     end) data
         ∧ targets `sublist_of`
             map (fun item => dict_get item "search_term" VNone) data
         ∧ (length targets ≤ length data)%nat
         ∧ ∀ t, t ∈ targets ↔
                truthy t = true
                ∧ ∃ item, item ∈ data ∧ item !! "search_term" = Some t).
Proof.
  split; [done|]. split; [done|]. split.
  - intros e w1 Hs. unfold load_targets. unfold_m. by rewrite Hs.
  - intros data w1 Hs. eexists. split.
    { unfold load_targets. unfold_m. by rewrite Hs. }
    split; [apply stored_targets|].
    split; [apply stored_targets_sublist|].
    split.
    { rewrite length_map. apply List.filter_length_le. }
    intros t. rewrite list_elem_of_fmap. split.
    + intros (item & -> & Hin). apply list_elem_of_In, filter_In in Hin.
      destruct Hin as [Hin Ht]. split; [done|].
      exists item. split; [by apply list_elem_of_In|].
      unfold dict_get in *. by destruct (item !! "search_term").
    + intros (Ht & item & Hin & Hit). exists item.
      assert (dict_get item "search_term" VNone = t) as Hg
        by (unfold dict_get; by rewrite Hit).
      split; [done|]. apply list_elem_of_In, filter_In.
      split; [by apply list_elem_of_In | by rewrite Hg].
Qed.

(** X14. A target that gives no work id is skipped before anything is
    asked of the throttle, the API or the store: [None], a URL without a
    [/work/<digits>] segment, and a blank string leave the report and the
    world as they are. *)
Theorem skipped_targets_touch_nothing (target : Val) (s : Results * World) :
  target = VNone
  ∨ (∃ u, target = VStr u ∧ startswith u "http" = true
          ∧ _extract_work_id u = None)
  ∨ (∃ t, target = VStr t ∧ startswith t "http" = false ∧ strip t = "") →
  scrape_target api_key target s = (Ok tt, s).
Proof.
  intros [->|[(u & -> & Hu & Hx)|(t & -> & Ht & Hs)]];
    unfold scrape_target, scrape_target_try, resolve_target, try_except; simpl.
  - done.
  - by rewrite Hu, Hx.
  - by rewrite Ht, Hs.
Qed.
End Counters.

(** ** The service *)

Section Service.
Context `{PyLib} {World : Type} `{BaseScraper World}.
Variable close : M World unit.

(** X15. The service runs the adapter without [urls], so the targets of a
    service run always come from the stored search terms, and it closes the
    scraper afterwards.  The report of the run is returned when [close]
    returns; what [close] raises reaches the caller of the service, the
    report is lost. *)
Theorem scrape_goat_closes (access_token : Val) (test_mode : bool)
    (test_limit : Z) (w : World) :
  ∃ r w1,
    scrape access_token test_mode test_limit None w = (Ok r, w1)
    ∧ (∀ w2, close w1 = (Ok tt, w2) →
             scrape_goat close access_token test_mode test_limit w = (Ok r, w2))
    ∧ (∀ e w2, close w1 = (Raise e, w2) →
               scrape_goat close access_token test_mode test_limit w
               = (Raise e, w2)).
Proof.
  destruct (scrape_cases access_token test_mode test_limit None w)
    as (r & w1 & Hr & _).
  exists r, w1. split; [done|].
  unfold scrape_goat, try_finally. rewrite Hr.
  split; [intros w2 ->|intros e w2 ->]; done.
Qed.
End Service.

(** ** The properties above on the sample worlds *)

Lemma lookup_raises_iteration :
  @scrape_target_try sample_pylib nat (scripted lookup_raises) (VStr "k")
    (VStr "35356138") (initial_results, 0%nat)
  = (Raise boom, (initial_results, 1%nat)).
Proof. vm_compute. reflexivity. Qed.

Lemma iteration_outcomes_witness :
  @scrape_target_try sample_pylib nat (scripted lookup_raises) (VStr "k")
    (VStr "35356138") (initial_results, 0%nat)
  = (Raise boom, (initial_results, 1%nat))
  ∧ ∃ r' w',
      @scrape_target sample_pylib nat (scripted lookup_raises) (VStr "k")
        (VStr "35356138") (initial_results, 0%nat) = (Ok tt, (r', w'))
      ∧ (r' = initial_results
         ∨ r' = incr_products_found initial_results
         ∨ r' = incr_products_found (incr_products_added initial_results)
         ∨ r' = incr_products_found (incr_products_updated initial_results)).
Proof.
  split; [exact lookup_raises_iteration|].
  destruct (@iteration_outcomes sample_pylib nat (scripted lookup_raises)
              (VStr "k") (VStr "35356138") initial_results 0%nat)
    as [Hraise Hok].
  pose proof (Hraise _ _ _ lookup_raises_iteration) as _. exact Hok.
Defined.

Lemma scrape_report_invariants_witness :
  truthy VNone = false
  ∧ ∃ r w',
      @scrape sample_pylib nat (scripted healthy) VNone false 5 None 0%nat
      = (Ok r, w')
      ∧ source r = "GOAT" ∧ duration_seconds r = 0%Z.
Proof.
  split; [reflexivity|].
  destruct (@scrape_report_invariants sample_pylib nat (scripted healthy) VNone
              false 5 None 0%nat)
    as (r & w' & Hr & Hsrc & _ & _ & _ & _ & _ & Hd).
  exists r, w'. split; [exact Hr|]. split; [exact Hsrc|]. by apply Hd.
Defined.

Lemma found_at_most_attempted_witness :
  ∃ r w',
    @scrape sample_pylib nat (scripted healthy) (VStr "k") true 0
      (Some [VStr "35356138"]) 0%nat = (Ok r, w')
    ∧ (products_found r ≤ 0)%nat
    ∧ status r = "warning" ∧ message r = Some no_works_message.
Proof.
  destruct (@found_at_most_attempted sample_pylib nat (scripted healthy) (VStr "k")
              true 0 (Some [VStr "35356138"]) [VStr "35356138"] 0%nat 1%nat
              eq_refl)
    as (r & w' & Hr & _ & Hlim & Hzero).
  exists r, w'. split; [exact Hr|]. split; [exact (Hlim eq_refl)|].
  apply Hzero; [reflexivity | lia | discriminate | reflexivity].
Defined.

Lemma load_targets_sources_witness :
  @load_targets nat (scripted with_terms) None 0%nat
  = (Ok [VStr "35356138"; VStr "https://www.librarything.com/work/1"], 0%nat)
  ∧ ∃ targets,
      @load_targets nat (scripted with_terms) None 0%nat = (Ok targets, 0%nat)
      ∧ (length targets ≤ 4)%nat
      ∧ VStr "35356138" ∈ targets
      ∧ VStr "" ∉ targets.
Proof.
  destruct (proj2 (proj2 (proj2 (@load_targets_sources nat (scripted with_terms)
                                   0%nat))) _ _ eq_refl)
    as (targets & Hl & Heq & _ & Hlen & Hin).
  split.
  - rewrite Hl, Heq. vm_compute. reflexivity.
  - exists targets. split; [exact Hl|]. split; [exact Hlen|]. split.
    + apply Hin. split; [reflexivity|].
      eexists. split; [apply list_elem_of_here|]. vm_compute. reflexivity.
    + intros Hx. apply Hin in Hx. destruct Hx as [Ht _]. discriminate Ht.
Defined.

Lemma skipped_targets_touch_nothing_witness :
  (startswith "https://www.librarything.com/author/brownpeter" "http" = true
   ∧ _extract_work_id "https://www.librarything.com/author/brownpeter" = None)
  ∧ @scrape_target sample_pylib nat (scripted healthy) (VStr "k")
      (VStr "https://www.librarything.com/author/brownpeter")
      (initial_results, 0%nat)
    = (Ok tt, (initial_results, 0%nat)).
Proof.
  assert (startswith "https://www.librarything.com/author/brownpeter" "http" = true
          ∧ _extract_work_id "https://www.librarything.com/author/brownpeter" = None)
    as Hskip by (split; vm_compute; reflexivity).
  split; [exact Hskip|].
  apply (@skipped_targets_touch_nothing sample_pylib nat (scripted healthy)).
  right. left. eexists. split; [reflexivity | exact Hskip].
Defined.

Lemma scrape_goat_closes_witness :
  ∃ w2,
    @scrape_goat sample_pylib nat (scripted healthy) (of_result (Raise boom))
      VNone false 5 0%nat = (Raise boom, w2).
Proof.
  destruct (@scrape_goat_closes sample_pylib nat (scripted healthy)
              (of_result (Raise boom)) VNone false 5 0%nat)
    as (r & w1 & _ & _ & Hraise).
  exists w1. by apply Hraise.
Defined.
